(** * Portfolio composition report: a shallow embedding of
      [portfolio_api_composition.py] and the properties of its three stages
      (fetcher, classifier, reporter). *)

From Stdlib Require Import ZArith NArith List String Ascii Bool Lia.
From Stdlib Require Import Permutation Sorted.
From Stdlib Require Decimal DecimalN DecimalFacts.
Import ListNotations.

Local Open Scope Z_scope.

(* ===================================================================== *)
(** * Python strings *)
(* ===================================================================== *)

(** A Python [str] is a sequence of Unicode code points: [len], slicing,
    [startswith] and [in] all count code points, not bytes. *)
Definition codepoint := N.
Definition str := list codepoint.

(** Literals are written as in the source file and decoded from UTF-8.
    [pending] is the number of continuation bytes still expected and [acc]
    the bits collected so far. *)
Fixpoint utf8_decode (pending : nat) (acc : N) (s : string) : str :=
  match s with
  | EmptyString => []
  | String a s' =>
      let b := N_of_ascii a in
      if (b <? 128)%N then b :: utf8_decode 0 0 s'
      else if (b <? 192)%N then
        let acc' := (acc * 64 + b mod 64)%N in
        match pending with
        | S (S p) => utf8_decode (S p) acc' s'
        | _ => acc' :: utf8_decode 0 0 s'
        end
      else if (b <? 224)%N then utf8_decode 1 (b mod 32)%N s'
      else if (b <? 240)%N then utf8_decode 2 (b mod 16)%N s'
      else utf8_decode 3 (b mod 8)%N s'
  end.

Definition lit (s : string) : str := utf8_decode 0 0 s.

Definition chr_eqb (a b : codepoint) : bool := (a =? b)%N.

Fixpoint str_eqb (a b : str) : bool :=
  match a, b with
  | [], [] => true
  | x :: a', y :: b' => chr_eqb x y && str_eqb a' b'
  | _, _ => false
  end.

(** [s.startswith(p)] *)
Fixpoint startswith (s p : str) : bool :=
  match p, s with
  | [], _ => true
  | c :: p', d :: s' => chr_eqb c d && startswith s' p'
  | _ :: _, [] => false
  end.

(** [sub in s] *)
Fixpoint contains (sub s : str) : bool :=
  startswith s sub ||
  match s with
  | [] => false
  | _ :: s' => contains sub s'
  end.

(** [len(s)] *)
Definition len (s : str) : Z := Z.of_nat (List.length s).

(** [s[:n]] for a literal [n >= 0] *)
Definition slice_to (n : nat) (s : str) : str := firstn n s.

(** [s.replace(old, new)] where [old] and [new] are single characters *)
Definition replace_char (old new : codepoint) (s : str) : str :=
  map (fun c => if chr_eqb c old then new else c) s.

(** ** Decimal rendering of integers *)

Fixpoint uint_digits (d : Decimal.uint) : str :=
  match d with
  | Decimal.Nil => []
  | Decimal.D0 d => 48%N :: uint_digits d
  | Decimal.D1 d => 49%N :: uint_digits d
  | Decimal.D2 d => 50%N :: uint_digits d
  | Decimal.D3 d => 51%N :: uint_digits d
  | Decimal.D4 d => 52%N :: uint_digits d
  | Decimal.D5 d => 53%N :: uint_digits d
  | Decimal.D6 d => 54%N :: uint_digits d
  | Decimal.D7 d => 55%N :: uint_digits d
  | Decimal.D8 d => 56%N :: uint_digits d
  | Decimal.D9 d => 57%N :: uint_digits d
  end.

(** The digits of [|z|], most significant first, no leading zero
    (["0"] for zero). *)
Definition abs_digits (z : Z) : str := uint_digits (N.to_uint (Z.abs_N z)).

Definition minus_sign : codepoint := 45%N.
Definition comma : codepoint := 44%N.
Definition space : codepoint := 32%N.

(** [str(z)], also what [f"{z}"] prints for an [int] *)
Definition str_of_int (z : Z) : str :=
  if z <? 0 then minus_sign :: abs_digits z else abs_digits z.

(** The [,] format option inserts the separator between groups of three
    digits counted from the least significant one.  The argument is the
    digit string reversed. *)
Fixpoint group_thousands_rev (sep : codepoint) (ds : str) : str :=
  match ds with
  | a :: b :: c :: ((_ :: _) as more) =>
      a :: b :: c :: sep :: group_thousands_rev sep more
  | _ => ds
  end.

(** [f"{z:,}"] *)
Definition format_comma (z : Z) : str :=
  let grouped := rev (group_thousands_rev comma (rev (abs_digits z))) in
  if z <? 0 then minus_sign :: grouped else grouped.

(** [format_quantity], source lines 27-29. *)
Definition format_quantity (quantity : Z) : str :=
  replace_char comma space (format_comma quantity).

(* ===================================================================== *)
(** * Python containers and builtins *)
(* ===================================================================== *)

(** A [dict] keeps its keys in insertion order; assigning to a key that is
    already present replaces the value and leaves the key where it is. *)
Definition dict (V : Type) := list (str * V).

Fixpoint dict_set {V} (k : str) (v : V) (d : dict V) : dict V :=
  match d with
  | [] => [(k, v)]
  | (k', v') :: d' =>
      if str_eqb k' k then (k', v) :: d' else (k', v') :: dict_set k v d'
  end.

Fixpoint dict_get {V} (k : str) (d : dict V) : option V :=
  match d with
  | [] => None
  | (k', v') :: d' => if str_eqb k' k then Some v' else dict_get k d'
  end.

Definition dict_items {V} (d : dict V) : list (str * V) := d.
Definition dict_values {V} (d : dict V) : list V := map snd d.
Definition dict_keys {V} (d : dict V) : list str := map fst d.

(** Truth value of a container: empty is false. *)
Definition truthy {A} (l : list A) : bool :=
  match l with [] => false | _ :: _ => true end.

(** Truth value of a value that is [None] or a container. *)
Definition truthy_opt {A} (o : option (list A)) : bool :=
  match o with None => false | Some l => truthy l end.

(** The container behind a value known not to be [None]. *)
Definition unwrap {A} (o : option (list A)) : list A :=
  match o with None => [] | Some l => l end.

(** [len(d)] *)
Definition dict_len {V} (d : dict V) : Z := Z.of_nat (List.length d).

(** [sum(...)] over integers *)
Definition sum_Z (l : list Z) : Z := fold_left Z.add l 0.

(** [sorted(l, key=key, reverse=reverse)].  The builtin is a stable sort;
    with [reverse=True] the list is reversed, sorted and reversed again, so
    that elements with equal keys still keep their original order. *)
Fixpoint insert_by {A} (key : A -> Z) (x : A) (l : list A) : list A :=
  match l with
  | [] => [x]
  | y :: l' => if key x <=? key y then x :: y :: l' else y :: insert_by key x l'
  end.

Definition sort_by {A} (key : A -> Z) (l : list A) : list A :=
  fold_right (insert_by key) [] l.

Definition sorted {A} (l : list A) (key : A -> Z) (reverse : bool) : list A :=
  if reverse then rev (sort_by key (rev l)) else sort_by key l.

(* ===================================================================== *)
(** * The remote service and the data it returns *)
(* ===================================================================== *)

Module Api.
(** Fixed-point quantity; only [units] is read. *)
Record Quotation := { units : Z; nano : Z }.
Record PortfolioPosition := { figi : str; quantity : Quotation }.
Record Instrument := { name : str; ticker : str }.
Record InstrumentResponse := { instrument : option Instrument }.
Record Account := { id : str; type : Z }.
End Api.

(** An exception is represented by the text [str(e)] that the handlers
    print and log. *)
Definition exn := str.

Inductive result (A : Type) : Type :=
| Ok (a : A)
| Raise (e : exn).
Arguments Ok {A} a.
Arguments Raise {A} e.

(** The value stored per instrument identifier by the fetcher:
    [{'quantity': .., 'name': .., 'ticker': ..}]. *)
Record PositionData := { quantity : Z; name : str; ticker : str }.

(** The value stored per ticker in a bucket: [{'name': .., 'quantity': ..}]. *)
Record Holding := { holding_name : str; holding_quantity : Z }.

Definition Buckets : Type :=
  dict Holding * dict Holding * dict Holding * dict Holding.

Section Program.

(** State of the remote brokerage service; every call may change it. *)
Variable W : Type.

(** The operations of the client that the program uses.  [get_accounts]
    stands for [client.users.get_accounts().accounts], [get_portfolio] for
    [client.operations.get_portfolio(account_id=..).positions],
    [get_instrument_by] for [client.instruments.get_instrument_by], and
    [open_session] / [close_session] for entering and leaving
    [with Client(TOKEN) as client]. *)
Record Client := {
  open_session : str -> W -> result unit * W;
  close_session : W -> W;
  get_accounts : W -> result (list Api.Account) * W;
  get_portfolio : str -> W -> result (list Api.PortfolioPosition) * W;
  get_instrument_by : Z -> str -> W -> result Api.InstrumentResponse * W
}.

(** What a run can observe and change: the service, the lines printed and
    the messages logged at level ERROR. *)
Record State := { world : W; stdout : list str; logfile : list str }.

Definition M (A : Type) : Type := State -> result A * State.

Definition ret {A} (a : A) : M A := fun st => (Ok a, st).

Definition bind {A B} (m : M A) (k : A -> M B) : M B :=
  fun st =>
    match m st with
    | (Ok a, st') => k a st'
    | (Raise e, st') => (Raise e, st')
    end.

(** [try: body / except Exception as e: handler] *)
Definition try_except {A} (body : M A) (handler : exn -> M A) : M A :=
  fun st =>
    match body st with
    | (Ok a, st') => (Ok a, st')
    | (Raise e, st') => handler e st'
    end.

Definition print (line : str) : M unit :=
  fun st =>
    (Ok tt, {| world := world st; stdout := stdout st ++ [line];
               logfile := logfile st |}).

Definition logging_error (message : str) : M unit :=
  fun st =>
    (Ok tt, {| world := world st; stdout := stdout st;
               logfile := logfile st ++ [message] |}).

Definition call {A} (op : W -> result A * W) : M A :=
  fun st =>
    let (r, w) := op (world st) in
    (r, {| world := w; stdout := stdout st; logfile := logfile st |}).

(** [with Client(TOKEN) as client: body]: the session is closed on every
    way out of [body]. *)
Definition with_client {A} (client : Client) (token : str) (body : M A) : M A :=
  fun st =>
    match call (open_session client token) st with
    | (Raise e, st') => (Raise e, st')
    | (Ok _, st') =>
        let (r, st'') := body st' in
        (r, {| world := close_session client (world st'');
               stdout := stdout st''; logfile := logfile st'' |})
    end.

End Program.

Arguments ret {W A} a.
Arguments bind {W A B} m k.
Arguments try_except {W A} body handler.
Arguments print {W} line.
Arguments logging_error {W} message.
Arguments call {W A} op.
Arguments with_client {W A} client token body.
Arguments world {W} s.
Arguments stdout {W} s.
Arguments logfile {W} s.
Arguments Build_State {W} world stdout logfile.
Arguments open_session {W} c.
Arguments close_session {W} c.
Arguments get_accounts {W} c.
Arguments get_portfolio {W} c.
Arguments get_instrument_by {W} c.

Declare Scope py_scope.
Delimit Scope py_scope with py.
Notation "x <- m ;; k" := (bind m (fun x => k))
  (at level 61, m at next level, right associativity) : py_scope.
Notation "m ;; k" := (bind m (fun _ => k))
  (at level 61, right associativity) : py_scope.
Local Open Scope py_scope.

Fixpoint for_each {W A} (l : list A) (body : A -> M W unit) : M W unit :=
  match l with
  | [] => ret tt
  | x :: l' => body x ;; for_each l' body
  end.

(* ===================================================================== *)
(** * Fetcher: [get_portfolio_composition], source lines 31-83 *)
(* ===================================================================== *)

(** The fixed name stored when the instrument lookup raises. *)
Definition unknown_name : str := lit "Неизвестно".

(** Body of the loop over [portfolio.positions] (lines 53-76); [positions]
    is the dictionary being filled. *)
Definition process_position {W} (client : Client W)
    (positions : dict PositionData) (position : Api.PortfolioPosition)
  : M W (dict PositionData) :=
  if Api.units (Api.quantity position) >? 0 then
    let figi := Api.figi position in
    let units := Api.units (Api.quantity position) in
    try_except
      (instrument <- call (get_instrument_by client 1 figi) ;;
       match Api.instrument instrument with
       | Some info =>
           ret (dict_set figi
                  {| quantity := units;
                     name := Api.name info;
                     ticker := Api.ticker info |} positions)
       | None => ret positions
       end)
      (fun e =>
         logging_error
           (lit "Ошибка при получении информации об инструменте "
              ++ figi ++ lit ": " ++ e) ;;
         ret (dict_set figi
                {| quantity := units;
                   name := unknown_name;
                   ticker := slice_to 8 figi |} positions))
  else ret positions.

Fixpoint process_positions {W} (client : Client W)
    (records : list Api.PortfolioPosition) (positions : dict PositionData)
  : M W (dict PositionData) :=
  match records with
  | [] => ret positions
  | position :: rest =>
      positions' <- process_position client positions position ;;
      process_positions client rest positions'
  end.

(** [None] is Python's [None]; [Some positions] is the dictionary. *)
Definition get_portfolio_composition {W} (client : Client W)
  : M W (option (dict PositionData)) :=
  try_except
    (accounts <- call (get_accounts client) ;;
     match find (fun acc => Api.type acc =? 1) accounts with
     | None =>
         print (lit "❌ Брокерский счет не найден") ;;
         ret None
     | Some broker_account =>
         let account_id := Api.id broker_account in
         print (lit "✅ Используем счет: " ++ account_id) ;;
         portfolio <- call (get_portfolio client account_id) ;;
         positions <- process_positions client portfolio [] ;;
         ret (Some positions)
     end)
    (fun e =>
       logging_error (lit "Ошибка при получении портфеля: " ++ e) ;;
       print (lit "❌ Ошибка при получении портфеля: " ++ e) ;;
       ret None).

(* ===================================================================== *)
(** * Classifier: [categorize_assets], source lines 85-107 *)
(* ===================================================================== *)

(** One iteration of the loop over [positions.items()]; the state is the
    four dictionaries [bonds], [stocks], [etfs], [others]. *)
Definition categorize_step (acc : Buckets) (item : str * PositionData)
  : Buckets :=
  let '(bonds, stocks, etfs, others) := acc in
  let '(figi, data) := item in
  let ticker := ticker data in
  let name := name data in
  let quantity := quantity data in
  let entry := {| holding_name := name; holding_quantity := quantity |} in
  if startswith ticker (lit "RU000") || contains (lit "ОФЗ") name
     || contains (lit "БО") name
  then (dict_set ticker entry bonds, stocks, etfs, others)
  else if startswith ticker (lit "T")
          && (contains (lit "ETF") name || contains (lit "фонд") name)
  then (bonds, stocks, dict_set ticker entry etfs, others)
  else if (len ticker <=? 5) && negb (startswith ticker (lit "RU"))
  then (bonds, dict_set ticker entry stocks, etfs, others)
  else (bonds, stocks, etfs, dict_set ticker entry others).

(** Returns [(bonds, stocks, etfs, others)]. *)
Definition categorize_assets (positions : dict PositionData) : Buckets :=
  fold_left categorize_step (dict_items positions) ([], [], [], []).

(* ===================================================================== *)
(** * Reporter: [display_portfolio_composition], source lines 109-172 *)
(* ===================================================================== *)

Definition rule (c : string) : str := repeat (hd 0%N (lit c)) 80.

(** [f"${ticker}; {data['name']}; {format_quantity(data['quantity'])}"] *)
Definition holding_line (item : str * Holding) : str :=
  let '(ticker, data) := item in
  lit "$" ++ ticker ++ lit "; " ++ holding_name data ++ lit "; "
    ++ format_quantity (holding_quantity data).

(** The block printed for one bucket (lines 124-130, and the same code for
    the three other buckets). *)
Definition print_bucket {W} (title : str) (bucket : dict Holding) : M W unit :=
  if truthy bucket then
    print title ;;
    print (rule "-") ;;
    let sorted_bucket :=
      sorted (dict_items bucket) (fun x => holding_quantity (snd x)) true in
    for_each sorted_bucket (fun item => print (holding_line item))
  else ret tt.

(** [sum(data['quantity'] for data in bucket.values())] *)
Definition bucket_total (bucket : dict Holding) : Z :=
  sum_Z (map holding_quantity (dict_values bucket)).

Definition display_portfolio_composition {W} (positions : dict PositionData)
  : M W unit :=
  if negb (truthy positions) then
    print (lit "❌ Нет данных для отображения")
  else
    print (lit "📊 СОСТАВ ПОРТФЕЛЯ ЧЕРЕЗ API") ;;
    print (rule "=") ;;
    print (lit "Формат: $тикет; название; количество") ;;
    print (rule "=") ;;
    let '(bonds, stocks, etfs, others) := categorize_assets positions in
    print_bucket (10%N :: lit "📊 ОБЛИГАЦИИ:") bonds ;;
    print_bucket (10%N :: lit "📈 АКЦИИ:") stocks ;;
    print_bucket (10%N :: lit "📊 ETF:") etfs ;;
    print_bucket (10%N :: lit "🔍 ПРОЧИЕ АКТИВЫ:") others ;;
    print (10%N :: rule "=") ;;
    let total_bonds := bucket_total bonds in
    let total_stocks := bucket_total stocks in
    let total_etfs := bucket_total etfs in
    let total_others := bucket_total others in
    print (lit "📊 Облигаций: " ++ format_quantity total_bonds) ;;
    print (lit "📈 Акций: " ++ format_quantity total_stocks) ;;
    print (lit "📊 ETF: " ++ format_quantity total_etfs) ;;
    print (lit "🔍 Прочих: " ++ format_quantity total_others) ;;
    print (lit "🎯 Всего активов: " ++ str_of_int (dict_len positions)) ;;
    print (lit "🎯 Общее количество: "
             ++ format_quantity
                  (total_bonds + total_stocks + total_etfs + total_others)).

(* ===================================================================== *)
(** * [main], source lines 174-204 *)
(* ===================================================================== *)

(** [TOKEN] is [os.getenv("TINKOFF_TOKEN")]: [None] or a string. *)
Definition main {W} (TOKEN : option str) (client : Client W) : M W unit :=
  if negb (truthy_opt TOKEN) then
    print (lit "❌ Не найден токен TINKOFF_TOKEN в переменных окружения") ;;
    print (lit "💡 Создайте файл .env с содержимым:") ;;
    print (lit "TINKOFF_TOKEN=ваш_токен_здесь")
  else
    let token := unwrap TOKEN in
      print (lit "🚀 Запуск анализа состава портфеля через API Tinkoff...") ;;
      print (lit "✅ Токен найден: " ++ slice_to 10 token ++ lit "...") ;;
      try_except
        (with_client client token
           (print (lit "✅ Подключение к API успешно") ;;
            positions <- get_portfolio_composition client ;;
            if truthy_opt positions then
              display_portfolio_composition (unwrap positions)
            else print (lit "❌ Не удалось получить данные портфеля")))
        (fun e =>
           logging_error (lit "Критическая ошибка: " ++ e) ;;
           print (lit "❌ Критическая ошибка: " ++ e) ;;
           print (lit "💡 Проверьте:") ;;
           print (lit "   - Правильность токена") ;;
           print (lit "   - Доступность API Tinkoff") ;;
           print (lit "   - Наличие активных позиций в портфеле")).

(* ===================================================================== *)
(** * Vocabulary of the properties *)
(* ===================================================================== *)

Inductive asset_class := Bonds | Stocks | Etfs | Others.

Definition class_eqb (a b : asset_class) : bool :=
  match a, b with
  | Bonds, Bonds | Stocks, Stocks | Etfs, Etfs | Others, Others => true
  | _, _ => false
  end.

(** The branch of [categorize_step] that a position takes. *)
Definition classify (data : PositionData) : asset_class :=
  if startswith (ticker data) (lit "RU000") || contains (lit "ОФЗ") (name data)
     || contains (lit "БО") (name data)
  then Bonds
  else if startswith (ticker data) (lit "T")
          && (contains (lit "ETF") (name data)
              || contains (lit "фонд") (name data))
  then Etfs
  else if (len (ticker data) <=? 5)
          && negb (startswith (ticker data) (lit "RU"))
  then Stocks
  else Others.

(** A component of the tuple returned by [categorize_assets]. *)
Definition bucket (c : asset_class) (b : Buckets) : dict Holding :=
  let '(bonds, stocks, etfs, others) := b in
  match c with
  | Bonds => bonds
  | Stocks => stocks
  | Etfs => etfs
  | Others => others
  end.

Definition holding_of (data : PositionData) : Holding :=
  {| holding_name := name data; holding_quantity := quantity data |}.

(** What one iteration does to the bucket [c]. *)
Definition bucket_step (c : asset_class) (d : dict Holding)
    (item : str * PositionData) : dict Holding :=
  if class_eqb c (classify (snd item))
  then dict_set (ticker (snd item)) (holding_of (snd item)) d
  else d.

(** The holding of the last item of [items] that is classified as [c] and
    has ticker [k]. *)
Fixpoint last_holding (c : asset_class) (k : str)
    (items : list (str * PositionData)) : option Holding :=
  match items with
  | [] => None
  | item :: rest =>
      match last_holding c k rest with
      | Some h => Some h
      | None =>
          if class_eqb c (classify (snd item)) && str_eqb (ticker (snd item)) k
          then Some (holding_of (snd item))
          else None
      end
  end.

(** A position is in a bucket when the bucket maps its ticker to its name
    and quantity. *)
Definition placed_in (data : PositionData) (d : dict Holding) : Prop :=
  dict_get (ticker data) d = Some (holding_of data).

(** No two positions that take the same branch have the same ticker. *)
Definition no_ticker_clash (positions : dict PositionData) : Prop :=
  NoDup (map (fun item => (classify (snd item), ticker (snd item)))
             (dict_items positions)).

(** The items of [positions] that take branch [c]. *)
Definition classified_as (c : asset_class) (positions : dict PositionData)
  : list (str * PositionData) :=
  filter (fun item => class_eqb c (classify (snd item))) (dict_items positions).

Definition quantities (items : list (str * PositionData)) : list Z :=
  map (fun item => quantity (snd item)) items.

(* ===================================================================== *)
(** * The claims as the specification words them, and sample inputs *)
(* ===================================================================== *)

(** "Every position is placed in exactly one of the four buckets." *)
Definition every_position_in_exactly_one_bucket
    (positions : dict PositionData) : Prop :=
  forall figi data, In (figi, data) (dict_items positions) ->
    exists c,
      placed_in data (bucket c (categorize_assets positions)) /\
      forall c', placed_in data (bucket c' (categorize_assets positions)) ->
                 c' = c.

Definition position_item (figi : string) (q : Z) (n t : string)
  : str * PositionData :=
  (lit figi, {| quantity := q; name := lit n; ticker := lit t |}).

(** Two instruments that report the same ticker. *)
Definition clash_positions : dict PositionData :=
  [ position_item "BBG000000001" 10 "Сбербанк" "SBER";
    position_item "BBG000000002" 20 "Сбербанк-п" "SBER" ].

(** The positions of the second end-to-end scenario. *)
Definition scenario2_positions : dict PositionData :=
  [ position_item "BBG004730N88" 100 "Сбербанк" "SBER";
    position_item "BBG00000A1B2" 500 "ОФЗ 26238" "RU000A1B2C3" ].

(* ===================================================================== *)
(** * Vocabulary of the reporter's properties *)
(* ===================================================================== *)

(** [r] lists the elements of [l] by non-increasing key, elements with
    equal keys in the order they have in [l]. *)
Definition stable_descending {A} (key : A -> Z) (l r : list A) : Prop :=
  Permutation r l /\
  StronglySorted (fun a b => key a >= key b) r /\
  forall k, filter (fun a => key a =? k) r = filter (fun a => key a =? k) l.

(** The sort key [lambda x: x[1]['quantity']]. *)
Definition by_quantity (item : str * Holding) : Z := holding_quantity (snd item).

(** The state after some more lines have been printed. *)
Definition emit {W} (lines : list str) (st : State W) : State W :=
  {| world := world st; stdout := stdout st ++ lines; logfile := logfile st |}.

Definition no_data_line : str := lit "❌ Нет данных для отображения".

Definition report_header : list str :=
  [ lit "📊 СОСТАВ ПОРТФЕЛЯ ЧЕРЕЗ API"; rule "=";
    lit "Формат: $тикет; название; количество"; rule "=" ].

Definition bucket_title (c : asset_class) : str :=
  match c with
  | Bonds => 10%N :: lit "📊 ОБЛИГАЦИИ:"
  | Stocks => 10%N :: lit "📈 АКЦИИ:"
  | Etfs => 10%N :: lit "📊 ETF:"
  | Others => 10%N :: lit "🔍 ПРОЧИЕ АКТИВЫ:"
  end.

(** The lines of one bucket when its holdings are listed as [rows]. *)
Definition section_lines (title : str) (b : dict Holding)
    (rows : list (str * Holding)) : list str :=
  if truthy b then title :: rule "-" :: map holding_line rows else [].

Definition bucket_lines (title : str) (b : dict Holding) : list str :=
  section_lines title b
    (sorted (dict_items b) (fun x => holding_quantity (snd x)) true).

(** The six closing lines for given subtotals, instrument count and grand
    quantity. *)
Definition totals_lines (bonds stocks etfs others count grand : Z)
  : list str :=
  [ lit "📊 Облигаций: " ++ format_quantity bonds;
    lit "📈 Акций: " ++ format_quantity stocks;
    lit "📊 ETF: " ++ format_quantity etfs;
    lit "🔍 Прочих: " ++ format_quantity others;
    lit "🎯 Всего активов: " ++ str_of_int count;
    lit "🎯 Общее количество: " ++ format_quantity grand ].

(** The closing lines as the reporter computes them, from the buckets. *)
Definition statistics_lines (positions : dict PositionData) : list str :=
  let b := categorize_assets positions in
  totals_lines (bucket_total (bucket Bonds b)) (bucket_total (bucket Stocks b))
    (bucket_total (bucket Etfs b)) (bucket_total (bucket Others b))
    (dict_len positions)
    (bucket_total (bucket Bonds b) + bucket_total (bucket Stocks b)
     + bucket_total (bucket Etfs b) + bucket_total (bucket Others b)).

(** The closing lines computed from the input positions. *)
Definition input_totals_lines (positions : dict PositionData) : list str :=
  totals_lines
    (sum_Z (quantities (classified_as Bonds positions)))
    (sum_Z (quantities (classified_as Stocks positions)))
    (sum_Z (quantities (classified_as Etfs positions)))
    (sum_Z (quantities (classified_as Others positions)))
    (dict_len positions)
    (sum_Z (quantities (dict_items positions))).

Definition report_lines (positions : dict PositionData) : list str :=
  if negb (truthy positions) then [no_data_line]
  else
    let b := categorize_assets positions in
    report_header
      ++ bucket_lines (bucket_title Bonds) (bucket Bonds b)
      ++ bucket_lines (bucket_title Stocks) (bucket Stocks b)
      ++ bucket_lines (bucket_title Etfs) (bucket Etfs b)
      ++ bucket_lines (bucket_title Others) (bucket Others b)
      ++ [10%N :: rule "="]
      ++ statistics_lines positions.

(** "The report's grand totals equal the number of instruments and the sum
    of heldQuantity across all input positions, and each per-bucket
    subtotal equals the sum of heldQuantity of the positions classified
    into that bucket." *)
Definition report_totals_match_input (W : Type)
    (positions : dict PositionData) : Prop :=
  forall (st : State W),
    exists body,
      stdout (snd (display_portfolio_composition positions st))
      = stdout st ++ body ++ input_totals_lines positions.

Definition empty_state : State unit :=
  {| world := tt; stdout := []; logfile := [] |}.

(* ===================================================================== *)
(** * Vocabulary of the fetcher's properties, and sample services *)
(* ===================================================================== *)

(** The test of line 53. *)
Definition active (position : Api.PortfolioPosition) : bool :=
  Api.units (Api.quantity position) >? 0.

(** The same service, except that portfolio snapshots come without the
    records whose integer units are not positive. *)
Definition only_active_records {W} (client : Client W) : Client W :=
  {| open_session := open_session client;
     close_session := close_session client;
     get_accounts := get_accounts client;
     get_portfolio := fun account_id w =>
       match get_portfolio client account_id w with
       | (Ok records, w') => (Ok (filter active records), w')
       | (Raise e, w') => (Raise e, w')
       end;
     get_instrument_by := get_instrument_by client |}.

(** Every stored quantity is positive. *)
Definition all_positive (positions : dict PositionData) : Prop :=
  Forall (fun item => quantity (snd item) > 0) (dict_items positions).

(** What is stored for a record whose instrument lookup raised. *)
Definition fallback_data (position : Api.PortfolioPosition) : PositionData :=
  {| quantity := Api.units (Api.quantity position);
     name := unknown_name;
     ticker := slice_to 8 (Api.figi position) |}.

(** The account listing raises, or it returns a brokerage account and the
    portfolio retrieval for it raises; [shown] is what has been printed by
    then. *)
Definition fetch_fails {W} (client : Client W) (w : W) (e : exn) (w' : W)
    (shown : list str) : Prop :=
  (get_accounts client w = (Raise e, w') /\ shown = []) \/
  (exists accounts w1 account,
      get_accounts client w = (Ok accounts, w1) /\
      find (fun acc => Api.type acc =? 1) accounts = Some account /\
      get_portfolio client (Api.id account) w1 = (Raise e, w') /\
      shown = [lit "✅ Используем счет: " ++ Api.id account]).

(** The state after the handler of the outermost [try] of [main] has run. *)
Definition critical {W} (e : exn) (st : State W) : State W :=
  {| world := world st;
     stdout := stdout st
       ++ [ lit "❌ Критическая ошибка: " ++ e; lit "💡 Проверьте:";
            lit "   - Правильность токена"; lit "   - Доступность API Tinkoff";
            lit "   - Наличие активных позиций в портфеле" ];
     logfile := logfile st ++ [lit "Критическая ошибка: " ++ e] |}.

(** The state after leaving the [with] block. *)
Definition closed {W} (client : Client W) (st : State W) : State W :=
  {| world := close_session client (world st); stdout := stdout st;
     logfile := logfile st |}.

(** The line with which every report of the reporter starts. *)
Definition reporter_first_line (line : str) : Prop :=
  line = no_data_line \/ line = lit "📊 СОСТАВ ПОРТФЕЛЯ ЧЕРЕЗ API".

(** A service without state that answers from fixed data. *)
Definition stub_client (accounts : result (list Api.Account))
    (portfolio : result (list Api.PortfolioPosition))
    (lookup : str -> result Api.InstrumentResponse) : Client unit :=
  {| open_session := fun _ w => (Ok tt, w);
     close_session := fun w => w;
     get_accounts := fun w => (accounts, w);
     get_portfolio := fun _ w => (portfolio, w);
     get_instrument_by := fun _ figi w => (lookup figi, w) |}.

Definition broker_account : Api.Account :=
  {| Api.id := lit "2000000001"; Api.type := 1 |}.

Definition record (figi : string) (units : Z) : Api.PortfolioPosition :=
  {| Api.figi := lit figi;
     Api.quantity := {| Api.units := units; Api.nano := 0 |} |}.

(** The lookup finds every instrument and names it after its identifier. *)
Definition lookup_found (figi : str) : result Api.InstrumentResponse :=
  Ok {| Api.instrument :=
          Some {| Api.name := lit "Instrument " ++ figi;
                  Api.ticker := slice_to 4 figi |} |}.

(** The lookup answers, but with no instrument. *)
Definition lookup_empty (figi : str) : result Api.InstrumentResponse :=
  Ok {| Api.instrument := None |}.

(** The lookup raises. *)
Definition lookup_raises (figi : str) : result Api.InstrumentResponse :=
  Raise (lit "NOT_FOUND").

(* ===================================================================== *)
(** * Vocabulary of the formatter's properties *)
(* ===================================================================== *)

Definition is_digit (c : codepoint) : Prop := (48 <= c <= 57)%N.

(** The number written by a string of decimal digits. *)
Definition int_of_digits (s : str) : Z :=
  fold_left (fun acc c => 10 * acc + (Z.of_N c - 48)) s 0.

(** [out] is [digits] cut into a first group of one to three characters
    and further groups of exactly three, each preceded by one space. *)
Definition grouped_by_three (sep : codepoint) (digits out : str) : Prop :=
  exists (first : str) (rest : list str),
    out = first ++ List.concat (map (fun g => sep :: g) rest) /\
    (1 <= List.length first <= 3)%nat /\
    Forall (fun g => List.length g = 3%nat) rest /\
    first ++ List.concat rest = digits.

(* ===================================================================== *)
(** * Vocabulary of further properties *)
(* ===================================================================== *)

(** What is stored for a record whose instrument lookup returned [info]. *)
Definition found_data (position : Api.PortfolioPosition)
    (info : Api.Instrument) : PositionData :=
  {| quantity := Api.units (Api.quantity position);
     name := Api.name info;
     ticker := Api.ticker info |}.

(** The message logged when the lookup for [position] raises [e]. *)
Definition lookup_error_message (position : Api.PortfolioPosition) (e : exn)
  : str :=
  lit "Ошибка при получении информации об инструменте "
    ++ Api.figi position ++ lit ": " ++ e.

(** [data] is what the loop stores for [record]: its integer units as
    quantity, and either the looked-up name and ticker or the fallback. *)
Definition stored_for (record : Api.PortfolioPosition) (data : PositionData)
  : Prop :=
  active record = true /\
  ((exists info, data = found_data record info) \/ data = fallback_data record).

(** The first two lines [main] prints once a token is present. *)
Definition greeting_lines (TOKEN : option str) : list str :=
  [ lit "🚀 Запуск анализа состава портфеля через API Tinkoff...";
    lit "✅ Токен найден: " ++ slice_to 10 (unwrap TOKEN) ++ lit "..." ].

Definition connected_line : str := lit "✅ Подключение к API успешно".
Definition no_portfolio_line : str := lit "❌ Не удалось получить данные портфеля".
Definition no_broker_line : str := lit "❌ Брокерский счет не найден".
Definition account_line (account : Api.Account) : str :=
  lit "✅ Используем счет: " ++ Api.id account.

Definition missing_token_lines : list str :=
  [ lit "❌ Не найден токен TINKOFF_TOKEN в переменных окружения";
    lit "💡 Создайте файл .env с содержимым:";
    lit "TINKOFF_TOKEN=ваш_токен_здесь" ].

Definition sample_token : option str := Some (lit "t.0123456789abcdef").

(** A service with one brokerage account whose portfolio is [records]. *)
Definition sample_client (records : list Api.PortfolioPosition)
    (lookup : str -> result Api.InstrumentResponse) : Client unit :=
  stub_client (Ok [broker_account]) (Ok records) lookup.

(** A service that refuses the session. *)
Definition refusing_client : Client unit :=
  {| open_session := fun _ w => (Raise (lit "UNAVAILABLE"), w);
     close_session := fun w => w;
     get_accounts := fun w => (Ok [], w);
     get_portfolio := fun _ w => (Ok [], w);
     get_instrument_by := fun _ figi w => (lookup_found figi, w) |}.

Definition sample_record : Api.PortfolioPosition := record "BBG000000002" 7.

(** What [lookup_found] answers for [sample_record]. *)
Definition sample_info : Api.Instrument :=
  {| Api.name := lit "Instrument " ++ Api.figi sample_record;
     Api.ticker := slice_to 4 (Api.figi sample_record) |}.

(** The number of entries over the four buckets. *)
Definition entries_count (b : Buckets) : nat :=
  (List.length (bucket Bonds b) + List.length (bucket Stocks b)
   + List.length (bucket Etfs b) + List.length (bucket Others b))%nat.

(** The bucket entry written for a position. *)
Definition entry_of (item : str * PositionData) : str * Holding :=
  (ticker (snd item), holding_of (snd item)).

(** All quantities of the positions are non-negative. *)
Definition all_non_negative (positions : dict PositionData) : Prop :=
  Forall (fun item => 0 <= quantity (snd item)) (dict_items positions).

(** The three tests of [categorize_step], in the order they are made. *)
Definition bond_test (ticker name : str) : bool :=
  startswith ticker (lit "RU000") || contains (lit "ОФЗ") name
  || contains (lit "БО") name.

Definition fund_test (ticker name : str) : bool :=
  startswith ticker (lit "T")
  && (contains (lit "ETF") name || contains (lit "фонд") name).

Definition stock_test (ticker : str) : bool :=
  (len ticker <=? 5) && negb (startswith ticker (lit "RU")).


(** [s] without its spaces. *)
Definition without_spaces (s : str) : str :=
  filter (fun c => negb (chr_eqb c space)) s.

(** Literals stay folded in proofs about arbitrary inputs; closed goals are
    settled by evaluation. *)
Opaque lit rule.

(* ===================================================================== *)
(** * Strings and dictionaries: basic facts *)
(* ===================================================================== *)

Lemma str_eqb_eq (a b : str) : str_eqb a b = true <-> a = b.
Proof.
  revert b; induction a as [|x a IH]; intros [|y b]; simpl;
    try (split; [discriminate | discriminate]); try tauto.
  rewrite andb_true_iff, IH. unfold chr_eqb. rewrite N.eqb_eq.
  split; [intros [-> ->]; reflexivity | intros H; inversion H; auto].
Qed.

Lemma str_eqb_refl (a : str) : str_eqb a a = true.
Proof. apply str_eqb_eq; reflexivity. Qed.

Lemma str_eqb_neq (a b : str) : str_eqb a b = false <-> a <> b.
Proof.
  rewrite <- str_eqb_eq. destruct (str_eqb a b); split; congruence.
Qed.

Lemma str_eqb_sym (a b : str) : str_eqb a b = str_eqb b a.
Proof.
  destruct (str_eqb a b) eqn:E; symmetry.
  - apply str_eqb_eq. apply str_eqb_eq in E. auto.
  - apply str_eqb_neq. apply str_eqb_neq in E. auto.
Qed.

Lemma class_eqb_eq (a b : asset_class) : class_eqb a b = true <-> a = b.
Proof. destruct a, b; simpl; split; congruence. Qed.

Lemma class_eqb_refl (a : asset_class) : class_eqb a a = true.
Proof. destruct a; reflexivity. Qed.

Section DictFacts.
Context {V : Type}.
Implicit Types (d : dict V) (k : str) (v : V).

Lemma dict_get_set k k' v d :
  dict_get k' (dict_set k v d) =
  if str_eqb k k' then Some v else dict_get k' d.
Proof.
  induction d as [|[k0 v0] d IH]; simpl.
  - destruct (str_eqb k k'); reflexivity.
  - destruct (str_eqb k0 k) eqn:E0; simpl.
    + apply str_eqb_eq in E0; subst k0.
      destruct (str_eqb k k'); reflexivity.
    + destruct (str_eqb k0 k') eqn:E1.
      * apply str_eqb_eq in E1; subst k0.
        rewrite str_eqb_sym, E0. reflexivity.
      * exact IH.
Qed.

Lemma dict_get_None k d : dict_get k d = None <-> ~ In k (dict_keys d).
Proof.
  induction d as [|[k0 v0] d IH]; simpl.
  - tauto.
  - destruct (str_eqb k0 k) eqn:E.
    + apply str_eqb_eq in E. split; [discriminate | tauto].
    + apply str_eqb_neq in E. rewrite IH. tauto.
Qed.

Lemma dict_get_In k v d : dict_get k d = Some v -> In (k, v) d.
Proof.
  induction d as [|[k0 v0] d IH]; simpl; [discriminate|].
  destruct (str_eqb k0 k) eqn:E.
  - apply str_eqb_eq in E. intros [= ->]. left; congruence.
  - auto.
Qed.

Lemma In_dict_get k v d :
  NoDup (dict_keys d) -> In (k, v) d -> dict_get k d = Some v.
Proof.
  induction d as [|[k0 v0] d IH]; simpl; [tauto|].
  intros ND [E | HIn].
  - injection E as -> ->. rewrite str_eqb_refl. reflexivity.
  - inversion ND as [|? ? Hnot ND']; subst.
    destruct (str_eqb k0 k) eqn:E.
    + apply str_eqb_eq in E; subst k0. exfalso. apply Hnot.
      change k with (fst (k, v)). apply in_map. exact HIn.
    + auto.
Qed.

(** Assigning to an absent key appends; to a present key, keeps the keys. *)
Lemma dict_set_absent k v d :
  ~ In k (dict_keys d) -> dict_set k v d = d ++ [(k, v)].
Proof.
  induction d as [|[k0 v0] d IH]; simpl; intros H; [reflexivity|].
  destruct (str_eqb k0 k) eqn:E.
  - apply str_eqb_eq in E. tauto.
  - f_equal. apply IH. tauto.
Qed.

Lemma dict_set_present k v d :
  In k (dict_keys d) -> dict_keys (dict_set k v d) = dict_keys d.
Proof.
  induction d as [|[k0 v0] d IH]; simpl; intros H; [tauto|].
  destruct (str_eqb k0 k) eqn:E; simpl.
  - reflexivity.
  - f_equal. apply IH. apply str_eqb_neq in E. tauto.
Qed.

Lemma dict_set_NoDup k v d :
  NoDup (dict_keys d) -> NoDup (dict_keys (dict_set k v d)).
Proof.
  intros ND. destruct (in_dec (list_eq_dec N.eq_dec) k (dict_keys d)) as [H|H].
  - rewrite dict_set_present; assumption.
  - rewrite dict_set_absent by assumption. unfold dict_keys.
    rewrite map_app. simpl.
    apply NoDup_app; [assumption | repeat constructor; simpl; tauto |].
    intros x Hx [<- | []]. exact (H Hx).
Qed.

(** Two well-formed dictionaries with the same lookups hold the same
    items, possibly in a different order. *)
Lemma dict_ext_Permutation d1 d2 :
  NoDup (dict_keys d1) -> NoDup (dict_keys d2) ->
  (forall k, dict_get k d1 = dict_get k d2) ->
  Permutation d1 d2.
Proof.
  intros N1 N2 H. apply NoDup_Permutation.
  - eapply NoDup_map_inv; exact N1.
  - eapply NoDup_map_inv; exact N2.
  - intros [k v]. split; intros HIn.
    + apply dict_get_In. rewrite <- H. apply In_dict_get; assumption.
    + apply dict_get_In. rewrite H. apply In_dict_get; assumption.
Qed.
End DictFacts.

(* ===================================================================== *)
(** * Classifier: the loop, bucket by bucket *)
(* ===================================================================== *)

Lemma categorize_step_bucket c acc item :
  bucket c (categorize_step acc item) = bucket_step c (bucket c acc) item.
Proof.
  destruct acc as [[[bonds stocks] etfs] others], item as [figi data].
  unfold categorize_step, bucket_step, classify, holding_of, snd.
  cbv zeta.
  destruct (startswith (ticker data) (lit "RU000") || _ || _);
    [destruct c; reflexivity|].
  destruct (startswith (ticker data) (lit "T") && _);
    [destruct c; reflexivity|].
  destruct ((len (ticker data) <=? 5) && _); destruct c; reflexivity.
Qed.

Lemma fold_categorize_bucket c items acc :
  bucket c (fold_left categorize_step items acc) =
  fold_left (bucket_step c) items (bucket c acc).
Proof.
  revert acc; induction items as [|item items IH]; intros acc; simpl.
  - reflexivity.
  - rewrite IH, categorize_step_bucket. reflexivity.
Qed.

Lemma categorize_assets_bucket c positions :
  bucket c (categorize_assets positions) =
  fold_left (bucket_step c) (dict_items positions) [].
Proof.
  unfold categorize_assets. rewrite fold_categorize_bucket.
  destruct c; reflexivity.
Qed.

Lemma bucket_step_get c k d item :
  dict_get k (bucket_step c d item) =
  if class_eqb c (classify (snd item)) && str_eqb (ticker (snd item)) k
  then Some (holding_of (snd item))
  else dict_get k d.
Proof.
  unfold bucket_step. destruct (class_eqb c (classify (snd item))); simpl.
  - apply dict_get_set.
  - reflexivity.
Qed.

Lemma fold_bucket_get c k items d :
  dict_get k (fold_left (bucket_step c) items d) =
  match last_holding c k items with
  | Some h => Some h
  | None => dict_get k d
  end.
Proof.
  revert d; induction items as [|item items IH]; intros d; simpl.
  - reflexivity.
  - rewrite IH, bucket_step_get.
    destruct (last_holding c k items); [reflexivity|].
    destruct (class_eqb c (classify (snd item)) && _); reflexivity.
Qed.

Lemma bucket_get c k positions :
  dict_get k (bucket c (categorize_assets positions)) =
  last_holding c k (dict_items positions).
Proof.
  rewrite categorize_assets_bucket, fold_bucket_get.
  destruct (last_holding c k _); reflexivity.
Qed.

Lemma fold_bucket_NoDup c items d :
  NoDup (dict_keys d) ->
  NoDup (dict_keys (fold_left (bucket_step c) items d)).
Proof.
  revert d; induction items as [|item items IH]; intros d ND; simpl.
  - exact ND.
  - apply IH. unfold bucket_step.
    destruct (class_eqb c (classify (snd item))); [|exact ND].
    apply dict_set_NoDup; exact ND.
Qed.

(** Every bucket has pairwise distinct tickers as keys. *)
Lemma bucket_NoDup c positions :
  NoDup (dict_keys (bucket c (categorize_assets positions))).
Proof.
  rewrite categorize_assets_bucket. apply fold_bucket_NoDup. constructor.
Qed.

Lemma last_holding_cons c k item rest :
  last_holding c k (item :: rest) =
  match last_holding c k rest with
  | Some h => Some h
  | None =>
      if class_eqb c (classify (snd item)) && str_eqb (ticker (snd item)) k
      then Some (holding_of (snd item))
      else None
  end.
Proof. reflexivity. Qed.

Lemma last_holding_app c k l1 l2 :
  last_holding c k (l1 ++ l2) =
  match last_holding c k l2 with
  | Some h => Some h
  | None => last_holding c k l1
  end.
Proof.
  induction l1 as [|item l1 IH]; simpl.
  - destruct (last_holding c k l2); reflexivity.
  - rewrite IH. destruct (last_holding c k l2); reflexivity.
Qed.

Lemma last_holding_Some c k items h :
  last_holding c k items = Some h ->
  exists item, In item items /\ classify (snd item) = c
               /\ ticker (snd item) = k /\ holding_of (snd item) = h.
Proof.
  induction items as [|item items IH]; simpl; [discriminate|].
  destruct (last_holding c k items) as [h'|].
  - intros [= <-]. destruct IH as (it & HIn & H); [reflexivity|].
    exists it. tauto.
  - destruct (class_eqb c (classify (snd item))) eqn:Ec;
      [|simpl; discriminate].
    destruct (str_eqb (ticker (snd item)) k) eqn:Ek; simpl; [|discriminate].
    intros [= <-]. exists item.
    apply class_eqb_eq in Ec. apply str_eqb_eq in Ek. auto.
Qed.

Lemma last_holding_None c k items :
  (forall item, In item items -> classify (snd item) = c ->
                ticker (snd item) <> k) ->
  last_holding c k items = None.
Proof.
  intros H. destruct (last_holding c k items) as [h|] eqn:E; [|reflexivity].
  apply last_holding_Some in E. destruct E as (item & HIn & Hc & Hk & _).
  exfalso. exact (H item HIn Hc Hk).
Qed.

Lemma last_holding_hit c k items item :
  In item items -> classify (snd item) = c -> ticker (snd item) = k ->
  last_holding c k items <> None.
Proof.
  induction items as [|x items IH]; simpl; [tauto|].
  intros [-> | HIn] Hc Hk.
  - destruct (last_holding c k items); [discriminate|].
    subst c k. rewrite class_eqb_refl, str_eqb_refl. discriminate.
  - specialize (IH HIn Hc Hk).
    destruct (last_holding c k items); [discriminate | tauto].
Qed.

(** The holding found for a ticker determines the bucket: the rule reads
    only the ticker and the name. *)
Lemma classify_holding d1 d2 :
  ticker d1 = ticker d2 -> holding_of d1 = holding_of d2 ->
  classify d1 = classify d2.
Proof.
  unfold holding_of, classify. intros Ht [= Hn _]. rewrite Ht, Hn. reflexivity.
Qed.

Lemma placed_in_classify data c positions :
  placed_in data (bucket c (categorize_assets positions)) ->
  c = classify data.
Proof.
  unfold placed_in. rewrite bucket_get. intros H.
  apply last_holding_Some in H. destruct H as (item & _ & Hc & Hk & Hh).
  rewrite <- Hc. apply classify_holding; assumption.
Qed.

Lemma placed_in_last data figi before after :
  (forall item, In item after -> classify (snd item) = classify data ->
                ticker (snd item) <> ticker data) ->
  placed_in data
    (bucket (classify data)
       (categorize_assets (before ++ (figi, data) :: after))).
Proof.
  intros H. unfold placed_in. rewrite bucket_get. unfold dict_items.
  rewrite last_holding_app. simpl.
  rewrite (last_holding_None _ _ _ H). simpl.
  rewrite class_eqb_refl, str_eqb_refl. reflexivity.
Qed.

Lemma sum_Z_from (l : list Z) (a : Z) : fold_left Z.add l a = a + sum_Z l.
Proof.
  unfold sum_Z. revert a; induction l as [|x l IH]; intros a; simpl.
  - lia.
  - rewrite IH, (IH x). lia.
Qed.

Lemma sum_Z_cons x l : sum_Z (x :: l) = x + sum_Z l.
Proof. unfold sum_Z at 1. simpl. apply sum_Z_from. Qed.

Lemma sum_Z_app l1 l2 : sum_Z (l1 ++ l2) = sum_Z l1 + sum_Z l2.
Proof.
  induction l1 as [|x l1 IH]; simpl.
  - reflexivity.
  - rewrite !sum_Z_cons, IH. lia.
Qed.

Lemma sum_Z_Permutation l1 l2 : Permutation l1 l2 -> sum_Z l1 = sum_Z l2.
Proof.
  induction 1; rewrite ?sum_Z_cons; lia.
Qed.

Lemma bucket_total_Permutation (d1 d2 : dict Holding) :
  Permutation d1 d2 -> bucket_total d1 = bucket_total d2.
Proof.
  intros H. unfold bucket_total, dict_values.
  apply sum_Z_Permutation. do 2 apply Permutation_map. exact H.
Qed.

Lemma one_entry_per_key {V} (k : str) (v : V) (d : dict V) :
  NoDup (dict_keys d) -> dict_get k d = Some v ->
  filter (fun e => str_eqb (fst e) k) d = [(k, v)].
Proof.
  induction d as [|[k0 v0] d IH]; simpl; [discriminate|].
  intros ND. inversion ND as [|? ? Hnot ND']; subst.
  destruct (str_eqb k0 k) eqn:E.
  - apply str_eqb_eq in E; subst k0. intros [= ->]. f_equal.
    apply dict_get_None in Hnot. clear - Hnot.
    induction d as [|[k1 v1] d IH]; simpl in *; [reflexivity|].
    destruct (str_eqb k1 k); [discriminate | auto].
  - auto.
Qed.

(* ===================================================================== *)
(** * Classifier: claims *)
(* ===================================================================== *)

Example categorize_scenario2 :
  categorize_assets scenario2_positions =
  ( [(lit "RU000A1B2C3",
      {| holding_name := lit "ОФЗ 26238"; holding_quantity := 500 |})],
    [(lit "SBER",
      {| holding_name := lit "Сбербанк"; holding_quantity := 100 |})],
    [], [] ).
Proof. vm_compute. reflexivity. Qed.

(** C1, as worded, fails: of two positions that share a ticker and a bucket
    the first one is in no bucket at all. *)
Lemma clash_drops_a_position :
  ~ every_position_in_exactly_one_bucket clash_positions.
Proof.
  intros H.
  destruct (H (lit "BBG000000001")
              {| quantity := 10; name := lit "Сбербанк"; ticker := lit "SBER" |})
    as (c & Hc & _).
  - left. reflexivity.
  - destruct c; vm_compute in Hc; discriminate.
Qed.

(** C1 (amended): every position is in at most one bucket, the one chosen
    by the rule; and it is in that bucket whenever no position iterated
    later with the same ticker is put in the same bucket. *)
Theorem classifier_partition
    (positions : dict PositionData) figi data before after
    (Hpos : dict_items positions = before ++ (figi, data) :: after) :
  (forall c, placed_in data (bucket c (categorize_assets positions)) ->
             c = classify data) /\
  ((forall item, In item after -> classify (snd item) = classify data ->
                 ticker (snd item) <> ticker data) ->
   placed_in data (bucket (classify data) (categorize_assets positions))).
Proof.
  unfold dict_items in Hpos. subst positions. split.
  - intros c. apply placed_in_classify.
  - apply placed_in_last.
Qed.

Lemma classifier_partition_witness :
  placed_in (snd (position_item "BBG004730N88" 100 "Сбербанк" "SBER"))
    (bucket Stocks (categorize_assets scenario2_positions)).
Proof.
  refine (proj2 (classifier_partition scenario2_positions
                   (lit "BBG004730N88") _ []
                   [position_item "BBG00000A1B2" 500 "ОФЗ 26238" "RU000A1B2C3"]
                   eq_refl) _).
  intros item [<- | []] Hc. vm_compute in Hc. discriminate.
Defined.

(** C4: of two positions with the same ticker that go to the same bucket,
    the bucket has a single entry for the ticker; it holds the name and
    quantity of the later one (when no third such position follows), and
    the items and the subtotal of the bucket are those obtained without the
    earlier position. *)
Theorem same_ticker_overwrites
    before f1 d1 middle f2 d2 after c
    (Hfigi : f1 <> f2)
    (Hticker : ticker d1 = ticker d2)
    (Hc1 : classify d1 = c) (Hc2 : classify d2 = c) :
  let positions := before ++ (f1, d1) :: middle ++ (f2, d2) :: after in
  let without := before ++ middle ++ (f2, d2) :: after in
  let b := bucket c (categorize_assets positions) in
  (exists h, filter (fun e => str_eqb (fst e) (ticker d1)) (dict_items b)
             = [(ticker d1, h)]) /\
  ((forall item, In item after -> classify (snd item) = c ->
                 ticker (snd item) <> ticker d2) ->
   dict_get (ticker d1) b = Some (holding_of d2)) /\
  Permutation (dict_items b)
              (dict_items (bucket c (categorize_assets without))) /\
  bucket_total b = bucket_total (bucket c (categorize_assets without)).
Proof.
  intros positions without b.
  assert (Hhit : forall k, last_holding c k (middle ++ (f2, d2) :: after) = None
                           -> ticker d1 <> k).
  { intros k Hnone Hk.
    refine (last_holding_hit c k _ (f2, d2) _ Hc2 _ Hnone).
    - apply in_or_app. right. left. reflexivity.
    - simpl. congruence. }
  assert (Hperm : Permutation b (bucket c (categorize_assets without))).
  { apply dict_ext_Permutation; try apply bucket_NoDup.
    intros k. unfold b. rewrite !bucket_get. unfold dict_items, positions, without.
    specialize (Hhit k). revert Hhit.
    generalize (middle ++ (f2, d2) :: after). intros rest Hhit.
    rewrite !last_holding_app, last_holding_cons.
    destruct (last_holding c k rest) as [h|]; [reflexivity|].
    specialize (Hhit eq_refl). apply str_eqb_neq in Hhit.
    simpl snd. rewrite Hhit, andb_false_r. reflexivity. }
  repeat split.
  - destruct (dict_get (ticker d1) b) as [h|] eqn:E.
    + exists h. apply one_entry_per_key; [apply bucket_NoDup | exact E].
    + exfalso. unfold b in E. rewrite bucket_get in E.
      refine (last_holding_hit c (ticker d1) _ (f1, d1) _ Hc1 eq_refl E).
      unfold dict_items, positions. apply in_or_app. right. left. reflexivity.
  - intros Hafter. unfold b. rewrite bucket_get.
    unfold dict_items, positions.
    rewrite last_holding_app, last_holding_cons, last_holding_app.
    rewrite last_holding_cons, Hticker, (last_holding_None _ _ _ Hafter).
    simpl snd. rewrite <- Hc2, class_eqb_refl, str_eqb_refl. reflexivity.
  - exact Hperm.
  - apply bucket_total_Permutation. exact Hperm.
Qed.

Lemma same_ticker_overwrites_witness :
  dict_get (lit "SBER") (bucket Stocks (categorize_assets clash_positions))
  = Some {| holding_name := lit "Сбербанк-п"; holding_quantity := 20 |}
  /\ bucket_total (bucket Stocks (categorize_assets clash_positions)) = 20.
Proof.
  pose proof (same_ticker_overwrites []
                (lit "BBG000000001")
                (snd (position_item "BBG000000001" 10 "Сбербанк" "SBER")) []
                (lit "BBG000000002")
                (snd (position_item "BBG000000002" 20 "Сбербанк-п" "SBER")) []
                Stocks) as H.
  destruct H as (_ & Hget & _ & Htotal).
  - vm_compute. discriminate.
  - vm_compute. reflexivity.
  - vm_compute. reflexivity.
  - vm_compute. reflexivity.
  - split.
    + assert (Hafter : forall item : str * PositionData, In item [] ->
                classify (snd item) = Stocks ->
                ticker (snd item) <> lit "SBER") by (intros item []).
      specialize (Hget Hafter). vm_compute in Hget |- *. exact Hget.
    + vm_compute in Htotal |- *. exact Htotal.
Defined.

(** C5: a position whose ticker starts with [RU000] takes the bonds branch
    whatever its name and quantity; the bonds bucket has an entry for its
    ticker, no other bucket has one, and the entry is the position's own
    unless a later position has the same ticker. *)
Theorem ru000_is_bond
    (positions : dict PositionData) figi data before after
    (Hpos : dict_items positions = before ++ (figi, data) :: after)
    (Hprefix : startswith (ticker data) (lit "RU000") = true) :
  let b := categorize_assets positions in
  classify data = Bonds /\
  (exists h, dict_get (ticker data) (bucket Bonds b) = Some h) /\
  dict_get (ticker data) (bucket Stocks b) = None /\
  dict_get (ticker data) (bucket Etfs b) = None /\
  dict_get (ticker data) (bucket Others b) = None /\
  ((forall item, In item after -> ticker (snd item) <> ticker data) ->
   placed_in data (bucket Bonds b)).
Proof.
  intros b.
  assert (Hbond : forall d, ticker d = ticker data -> classify d = Bonds).
  { intros d Hd. unfold classify. rewrite Hd, Hprefix. reflexivity. }
  assert (Hother : forall c, c <> Bonds ->
            dict_get (ticker data) (bucket c b) = None).
  { intros c Hc. unfold b. rewrite bucket_get.
    apply last_holding_None. intros item _ Hcl Hk.
    apply Hc. rewrite <- Hcl. apply Hbond. exact Hk. }
  unfold dict_items in Hpos.
  split; [apply Hbond; reflexivity|].
  split.
  { destruct (dict_get (ticker data) (bucket Bonds b)) as [h|] eqn:E;
      [exists h; reflexivity|].
    exfalso. unfold b in E. rewrite bucket_get in E.
    refine (last_holding_hit Bonds (ticker data) _ (figi, data) _ _ eq_refl E).
    - unfold dict_items. rewrite Hpos. apply in_or_app. right. left. reflexivity.
    - apply Hbond. reflexivity. }
  repeat split; try (apply Hother; discriminate).
  intros Hafter. unfold b. subst positions.
  rewrite <- (Hbond data eq_refl). apply placed_in_last.
  intros item HIn _. apply Hafter. exact HIn.
Qed.

Lemma ru000_is_bond_witness :
  placed_in (snd (position_item "BBG00000A1B2" 500 "ОФЗ 26238" "RU000A1B2C3"))
    (bucket Bonds (categorize_assets scenario2_positions)).
Proof.
  refine (proj2 (proj2 (proj2 (proj2 (proj2
            (ru000_is_bond scenario2_positions (lit "BBG00000A1B2") _
               [position_item "BBG004730N88" 100 "Сбербанк" "SBER"] []
               eq_refl eq_refl))))) _).
  intros item [].
Defined.

(* ===================================================================== *)
(** * The builtin [sorted] *)
(* ===================================================================== *)

Section Sorting.
Context {A : Type} (key : A -> Z).

Lemma insert_by_Permutation x l : Permutation (insert_by key x l) (x :: l).
Proof.
  induction l as [|y l IH]; simpl.
  - reflexivity.
  - destruct (key x <=? key y); [reflexivity|].
    rewrite IH. apply perm_swap.
Qed.

Lemma sort_by_Permutation l : Permutation (sort_by key l) l.
Proof.
  induction l as [|x l IH]; simpl.
  - reflexivity.
  - rewrite insert_by_Permutation. constructor. exact IH.
Qed.

Lemma insert_by_sorted x l :
  StronglySorted (fun a b => key a <= key b) l ->
  StronglySorted (fun a b => key a <= key b) (insert_by key x l).
Proof.
  induction 1 as [|y l Hs IH Hy]; simpl.
  - repeat constructor.
  - destruct (key x <=? key y) eqn:E.
    + apply Z.leb_le in E. constructor.
      * constructor; assumption.
      * constructor; [exact E|].
        eapply Forall_impl; [|exact Hy]. simpl. intros; lia.
    + apply Z.leb_gt in E. constructor; [exact IH|].
      eapply Permutation_Forall.
      * symmetry. apply insert_by_Permutation.
      * constructor; [lia | exact Hy].
Qed.

Lemma sort_by_sorted l :
  StronglySorted (fun a b => key a <= key b) (sort_by key l).
Proof.
  induction l as [|x l IH]; simpl.
  - constructor.
  - apply insert_by_sorted. exact IH.
Qed.

(** Insertion passes only elements with a strictly smaller key. *)
Lemma insert_by_filter k x l :
  filter (fun a => key a =? k) (insert_by key x l)
  = filter (fun a => key a =? k) (x :: l).
Proof.
  induction l as [|y l IH]; simpl.
  - reflexivity.
  - destruct (key x <=? key y) eqn:E; [reflexivity|].
    apply Z.leb_gt in E. simpl. rewrite IH. simpl.
    destruct (key y =? k) eqn:Ey, (key x =? k) eqn:Ex; try reflexivity.
    apply Z.eqb_eq in Ey, Ex. lia.
Qed.

Lemma sort_by_filter k l :
  filter (fun a => key a =? k) (sort_by key l)
  = filter (fun a => key a =? k) l.
Proof.
  induction l as [|x l IH]; simpl.
  - reflexivity.
  - rewrite insert_by_filter. simpl. rewrite IH. reflexivity.
Qed.

Lemma StronglySorted_snoc (R : A -> A -> Prop) l x :
  StronglySorted R l -> Forall (fun y => R y x) l ->
  StronglySorted R (l ++ [x]).
Proof.
  induction 1 as [|y l Hs IH Hy]; simpl; intros Hx.
  - repeat constructor.
  - inversion Hx; subst. constructor; [auto|].
    apply Forall_app. split; [exact Hy | repeat constructor; assumption].
Qed.

Lemma StronglySorted_rev (R : A -> A -> Prop) l :
  StronglySorted R l -> StronglySorted (fun a b => R b a) (rev l).
Proof.
  induction 1 as [|y l Hs IH Hy]; simpl.
  - constructor.
  - apply StronglySorted_snoc; [exact IH|].
    apply Forall_rev. exact Hy.
Qed.

Lemma StronglySorted_impl (R R' : A -> A -> Prop) l :
  (forall a b, R a b -> R' a b) -> StronglySorted R l -> StronglySorted R' l.
Proof.
  intros HR. induction 1 as [|y l Hs IH Hy]; constructor.
  - exact IH.
  - eapply Forall_impl; [|exact Hy]. intros b. apply HR.
Qed.

(** What [sorted(l, key=key, reverse=True)] returns. *)
Lemma sorted_reverse_spec l : stable_descending key l (sorted l key true).
Proof.
  unfold stable_descending, sorted. repeat split.
  - rewrite <- Permutation_rev, sort_by_Permutation.
    symmetry. apply Permutation_rev.
  - apply (StronglySorted_impl (fun a b => key b <= key a)).
  + intros a b Hab. lia.
  + apply StronglySorted_rev, sort_by_sorted.
- intros k. rewrite filter_rev, sort_by_filter, filter_rev.
    apply rev_involutive.
Qed.

(** The three conditions leave no choice: any stable sort by
    non-increasing key returns the same list. *)
Lemma stable_descending_unique l r1 r2 :
  stable_descending key l r1 -> stable_descending key l r2 -> r1 = r2.
Proof.
  intros (P1 & S1 & F1) (P2 & S2 & F2).
  assert (P : Permutation r1 r2) by (rewrite P1; symmetry; exact P2).
  assert (F : forall k, filter (fun a => key a =? k) r1
                        = filter (fun a => key a =? k) r2)
    by (intros k; rewrite F1, F2; reflexivity).
  clear P1 P2 F1 F2 l. revert r2 S2 P F.
  induction S1 as [|a r1 S1 IH Ha]; intros r2 S2 P F.
  - apply Permutation_nil in P. congruence.
  - destruct r2 as [|b r2].
    + symmetry in P. apply Permutation_nil in P. discriminate.
    + inversion S2 as [|? ? S2' Hb]; subst.
      assert (Hab : key a = key b).
      { assert (key a >= key b).
        { assert (HIn : In b (a :: r1))
            by (eapply Permutation_in; [symmetry; exact P | left; reflexivity]).
          destruct HIn as [-> | HIn]; [lia|].
          rewrite Forall_forall in Ha. apply Ha. exact HIn. }
        assert (key b >= key a).
        { assert (HIn : In a (b :: r2))
            by (eapply Permutation_in; [exact P | left; reflexivity]).
          destruct HIn as [-> | HIn]; [lia|].
          rewrite Forall_forall in Hb. apply Hb. exact HIn. }
        lia. }
      pose proof (F (key a)) as Fa. simpl in Fa.
      rewrite <- Hab, Z.eqb_refl in Fa. injection Fa as <- _.
      f_equal. apply IH.
      * exact S2'.
      * eapply Permutation_cons_inv. exact P.
      * intros k. specialize (F k). simpl in F.
        destruct (key a =? k); [injection F; auto | exact F].
Qed.
End Sorting.

(* ===================================================================== *)
(** * Reporter: what a run prints *)
(* ===================================================================== *)

Section Runs.
Context {W : Type}.
Implicit Types (st : State W).

Lemma emit_nil st : emit [] st = st.
Proof. destruct st. unfold emit. simpl. rewrite app_nil_r. reflexivity. Qed.

Lemma emit_emit l1 l2 st : emit l2 (emit l1 st) = emit (l1 ++ l2) st.
Proof. unfold emit. simpl. rewrite app_assoc. reflexivity. Qed.

Lemma print_run line st : print line st = (Ok tt, emit [line] st).
Proof. reflexivity. Qed.

Lemma bind_run {A B} (m : M W A) (k : A -> M W B) st a st' :
  m st = (Ok a, st') -> bind m k st = k a st'.
Proof. unfold bind. intros ->. reflexivity. Qed.

Lemma bind_print {B} line (k : unit -> M W B) st :
  bind (print line) k st = k tt (emit [line] st).
Proof. reflexivity. Qed.

Lemma for_each_print {A} (f : A -> str) (rows : list A) st :
  for_each rows (fun item => print (f item)) st
  = (Ok tt, emit (map f rows) st).
Proof.
  revert st; induction rows as [|x rows IH]; intros st; simpl.
  - unfold ret. rewrite emit_nil. reflexivity.
  - rewrite bind_print, IH, emit_emit. reflexivity.
Qed.

Lemma print_bucket_run title b st :
  print_bucket title b st = (Ok tt, emit (bucket_lines title b) st).
Proof.
  unfold print_bucket, bucket_lines, section_lines.
  destruct (truthy b).
  - rewrite !bind_print, for_each_print, !emit_emit. reflexivity.
  - unfold ret. rewrite emit_nil. reflexivity.
Qed.

Lemma bind_print_bucket {B} title b (k : unit -> M W B) st :
  bind (print_bucket title b) k st = k tt (emit (bucket_lines title b) st).
Proof. apply bind_run, print_bucket_run. Qed.

(** The reporter cannot fail, touches neither the service nor the log,
    and appends [report_lines positions] to what was printed before. *)
Lemma display_run positions st :
  display_portfolio_composition positions st
  = (Ok tt, emit (report_lines positions) st).
Proof.
  unfold display_portfolio_composition, report_lines, statistics_lines,
    totals_lines.
  destruct (negb (truthy positions)); [reflexivity|].
  destruct (categorize_assets positions) as [[[bonds stocks] etfs] others].
  cbv beta iota zeta delta [bucket].
  repeat first [ rewrite bind_print | rewrite bind_print_bucket
               | rewrite print_run | rewrite emit_emit ].
  reflexivity.
Qed.
End Runs.

(* ===================================================================== *)
(** * Buckets when no ticker is reused within a bucket *)
(* ===================================================================== *)

Lemma fold_bucket_no_clash c items d :
  NoDup (dict_keys d
         ++ map (fun it : str * PositionData => ticker (snd it))
                (filter (fun it : str * PositionData => class_eqb c (classify (snd it))) items)) ->
  fold_left (bucket_step c) items d
  = d ++ map (fun it : str * PositionData => (ticker (snd it), holding_of (snd it)))
             (filter (fun it : str * PositionData => class_eqb c (classify (snd it))) items).
Proof.
  revert d; induction items as [|item items IH]; intros d ND; simpl.
  - rewrite app_nil_r. reflexivity.
  - unfold bucket_step at 2. simpl in ND.
    destruct (class_eqb c (classify (snd item))); simpl in *.
    + rewrite dict_set_absent by (apply NoDup_remove_2 in ND;
        intros HIn; apply ND, in_or_app; left; exact HIn).
      rewrite IH.
      * rewrite <- app_assoc. reflexivity.
      * unfold dict_keys in *. rewrite map_app, <- app_assoc. exact ND.
    + apply IH. exact ND.
Qed.

Lemma no_clash_tickers c items :
  NoDup (map (fun it : str * PositionData => (classify (snd it), ticker (snd it))) items) ->
  NoDup (map (fun it : str * PositionData => ticker (snd it))
             (filter (fun it : str * PositionData => class_eqb c (classify (snd it))) items)).
Proof.
  induction items as [|item items IH]; simpl; intros ND; [constructor|].
  inversion ND as [|? ? Hnot ND']; subst.
  destruct (class_eqb c (classify (snd item))) eqn:Ec; [|auto].
  simpl. constructor; [|auto].
  intros HIn. apply in_map_iff in HIn. destruct HIn as (y & Hy & HIn).
  apply filter_In in HIn. destruct HIn as [HIn Hcy].
  apply class_eqb_eq in Ec, Hcy. apply Hnot.
  apply in_map_iff. exists y. split; [|exact HIn].
  rewrite Hy. congruence.
Qed.

Lemma bucket_no_clash c positions :
  no_ticker_clash positions ->
  bucket c (categorize_assets positions)
  = map (fun it : str * PositionData => (ticker (snd it), holding_of (snd it)))
        (classified_as c positions).
Proof.
  intros H. rewrite categorize_assets_bucket, fold_bucket_no_clash.
  - reflexivity.
  - simpl. apply no_clash_tickers. exact H.
Qed.

Lemma bucket_total_no_clash c positions :
  no_ticker_clash positions ->
  bucket_total (bucket c (categorize_assets positions))
  = sum_Z (quantities (classified_as c positions)).
Proof.
  intros H. rewrite bucket_no_clash by exact H.
  unfold bucket_total, dict_values, quantities. rewrite !map_map. reflexivity.
Qed.

Lemma quantities_partition (positions : dict PositionData) :
  sum_Z (quantities (classified_as Bonds positions))
  + sum_Z (quantities (classified_as Stocks positions))
  + sum_Z (quantities (classified_as Etfs positions))
  + sum_Z (quantities (classified_as Others positions))
  = sum_Z (quantities (dict_items positions)).
Proof.
  unfold classified_as, dict_items.
  induction positions as [|item items IH]; simpl; [reflexivity|].
  rewrite sum_Z_cons, <- IH.
  destruct (classify (snd item)); simpl; rewrite sum_Z_cons; lia.
Qed.

(* ===================================================================== *)
(** * Reporter: claims *)
(* ===================================================================== *)

Example report_scenario2_totals :
  skipn 10 (report_lines scenario2_positions)
  = [ 10%N :: rule "=";
      lit "📊 Облигаций: 500"; lit "📈 Акций: 100"; lit "📊 ETF: 0";
      lit "🔍 Прочих: 0"; lit "🎯 Всего активов: 2";
      lit "🎯 Общее количество: 600" ].
Proof. vm_compute. reflexivity. Qed.

(** C3, as worded, fails: with two positions that share a ticker and a
    bucket the report shows the quantity of one of them only; and for no
    positions at all the report has no totals. *)
Lemma totals_differ_from_input :
  ~ report_totals_match_input unit clash_positions /\
  ~ report_totals_match_input unit [].
Proof.
  split; intros H; destruct (H empty_state) as [body Hbody];
    apply (f_equal (fun l => last l [])) in Hbody;
    unfold input_totals_lines, totals_lines in Hbody;
    change (?a :: ?b :: ?c :: ?d :: ?e :: [?f]) with ([a; b; c; d; e] ++ [f])
      in Hbody;
    rewrite !app_assoc, last_last in Hbody;
    vm_compute in Hbody; discriminate.
Qed.

(** C3 (amended): for a non-empty position set in which no two positions
    of the same bucket share a ticker, the report ends with the four
    subtotals, each the sum of the quantities of the positions classified
    into that bucket, the number of positions, and the sum of the
    quantities of all positions. *)
Theorem report_totals
    (W : Type) (positions : dict PositionData)
    (Hnonempty : truthy positions = true)
    (Hclash : no_ticker_clash positions) :
  report_totals_match_input W positions.
Proof.
  intros st. rewrite display_run. cbn [snd emit stdout].
  unfold report_lines. rewrite Hnonempty. cbn [negb]. cbv zeta.
  unfold statistics_lines, input_totals_lines.
  rewrite !bucket_total_no_clash by exact Hclash.
  rewrite quantities_partition.
  set (b := categorize_assets positions).
  exists (report_header
            ++ bucket_lines (bucket_title Bonds) (bucket Bonds b)
            ++ bucket_lines (bucket_title Stocks) (bucket Stocks b)
            ++ bucket_lines (bucket_title Etfs) (bucket Etfs b)
            ++ bucket_lines (bucket_title Others) (bucket Others b)
            ++ [10%N :: rule "="]).
  rewrite <- !app_assoc. reflexivity.
Qed.

Lemma report_totals_witness :
  exists body,
    stdout (snd (display_portfolio_composition scenario2_positions empty_state))
    = body ++ input_totals_lines scenario2_positions.
Proof.
  refine (report_totals unit scenario2_positions eq_refl _ empty_state).
  unfold no_ticker_clash. vm_compute.
  repeat constructor; simpl; intuition discriminate.
Defined.

(** C7: the lines of every bucket that is printed list its holdings by
    non-increasing quantity, holdings of equal quantity in the order in
    which the bucket received their tickers. *)
Theorem buckets_rendered_sorted
    (W : Type) (positions : dict PositionData) (st : State W)
    (Hnonempty : truthy positions = true) :
  let b := categorize_assets positions in
  exists rows : asset_class -> list (str * Holding),
    (forall c, stable_descending by_quantity (dict_items (bucket c b)) (rows c))
    /\ stdout (snd (display_portfolio_composition positions st))
       = stdout st ++ report_header
           ++ section_lines (bucket_title Bonds) (bucket Bonds b) (rows Bonds)
           ++ section_lines (bucket_title Stocks) (bucket Stocks b) (rows Stocks)
           ++ section_lines (bucket_title Etfs) (bucket Etfs b) (rows Etfs)
           ++ section_lines (bucket_title Others) (bucket Others b) (rows Others)
           ++ [10%N :: rule "="] ++ statistics_lines positions.
Proof.
  intros b.
  exists (fun c => sorted (dict_items (bucket c b)) by_quantity true).
  split.
  - intros c. apply sorted_reverse_spec.
  - rewrite display_run. simpl. unfold report_lines. rewrite Hnonempty.
    reflexivity.
Qed.

Lemma buckets_rendered_sorted_witness :
  exists rows : asset_class -> list (str * Holding),
    (forall c, stable_descending by_quantity
                 (dict_items (bucket c (categorize_assets scenario2_positions)))
                 (rows c))
    /\ stdout (snd (display_portfolio_composition scenario2_positions
                      empty_state))
       = report_header
           ++ section_lines (bucket_title Bonds)
                (bucket Bonds (categorize_assets scenario2_positions))
                (rows Bonds)
           ++ section_lines (bucket_title Stocks)
                (bucket Stocks (categorize_assets scenario2_positions))
                (rows Stocks)
           ++ section_lines (bucket_title Etfs)
                (bucket Etfs (categorize_assets scenario2_positions))
                (rows Etfs)
           ++ section_lines (bucket_title Others)
                (bucket Others (categorize_assets scenario2_positions))
                (rows Others)
           ++ [10%N :: rule "="] ++ statistics_lines scenario2_positions.
Proof.
  exact (buckets_rendered_sorted unit scenario2_positions empty_state eq_refl).
Defined.

(** C10: the reporter's result is a function of the position set alone.
    From any two states it succeeds, appends the same lines (those computed
    from the buckets of [categorize_assets positions]) and leaves the
    service and the log as they were; run again, it prints them again. *)
Theorem classifier_and_reporter_deterministic
    (W : Type) (positions : dict PositionData) (st1 st2 : State W) :
  exists lines,
    lines = report_lines positions /\
    display_portfolio_composition positions st1 = (Ok tt, emit lines st1) /\
    display_portfolio_composition positions st2 = (Ok tt, emit lines st2) /\
    (display_portfolio_composition positions ;;
     display_portfolio_composition positions) st1
    = (Ok tt, emit (lines ++ lines) st1).
Proof.
  exists (report_lines positions). repeat split; try apply display_run.
  rewrite (bind_run _ _ _ _ _ (display_run positions st1)).
  rewrite display_run, emit_emit. reflexivity.
Qed.

(* ===================================================================== *)
(** * Fetcher: the loop over the snapshot *)
(* ===================================================================== *)

Section Fetcher.
Context {W : Type} (client : Client W).
Implicit Types (st : State W) (positions : dict PositionData).

Lemma process_position_inactive positions position st :
  active position = false ->
  process_position client positions position st = (Ok positions, st).
Proof.
  unfold process_position, active. intros ->. reflexivity.
Qed.

(** The lookup raised: the record is kept with the fallback name and
    ticker, and the failure is logged. *)
Lemma process_position_raise positions position st e w' :
  active position = true ->
  get_instrument_by client 1 (Api.figi position) (world st) = (Raise e, w') ->
  process_position client positions position st
  = (Ok (dict_set (Api.figi position) (fallback_data position) positions),
     {| world := w'; stdout := stdout st;
        logfile := logfile st
          ++ [lit "Ошибка при получении информации об инструменте "
                ++ Api.figi position ++ lit ": " ++ e] |}).
Proof.
  unfold process_position, active. intros -> H.
  unfold try_except, bind, call. rewrite H. reflexivity.
Qed.

(** The lookup returned an instrument. *)
Lemma process_position_found positions position st info w' :
  active position = true ->
  get_instrument_by client 1 (Api.figi position) (world st)
  = (Ok {| Api.instrument := Some info |}, w') ->
  process_position client positions position st
  = (Ok (dict_set (Api.figi position)
           {| quantity := Api.units (Api.quantity position);
              name := Api.name info; ticker := Api.ticker info |}
           positions),
     {| world := w'; stdout := stdout st; logfile := logfile st |}).
Proof.
  unfold process_position, active. intros -> H.
  unfold try_except, bind, call. rewrite H. reflexivity.
Qed.

(** The lookup returned a response without instrument: nothing is
    stored for the record. *)
Lemma process_position_empty positions position st w' :
  active position = true ->
  get_instrument_by client 1 (Api.figi position) (world st)
  = (Ok {| Api.instrument := None |}, w') ->
  process_position client positions position st
  = (Ok positions,
     {| world := w'; stdout := stdout st; logfile := logfile st |}).
Proof.
  unfold process_position, active. intros -> H.
  unfold try_except, bind, call. rewrite H. reflexivity.
Qed.

Lemma dict_set_all_positive figi data positions :
  all_positive positions -> quantity data > 0 ->
  all_positive (dict_set figi data positions).
Proof.
  unfold all_positive, dict_items. intros H Hd.
  induction positions as [|[k v] d IH]; simpl.
  - repeat constructor. exact Hd.
  - inversion H; subst.
    destruct (str_eqb k figi); constructor; auto.
Qed.

(** One iteration never raises, prints nothing, and keeps all stored
    quantities positive. *)
Lemma process_position_ok positions position st :
  all_positive positions ->
  exists positions' st',
    process_position client positions position st = (Ok positions', st')
    /\ stdout st' = stdout st /\ all_positive positions'.
Proof.
  intros Hall. destruct (active position) eqn:Ha.
  - assert (Hq : Api.units (Api.quantity position) > 0)
      by (unfold active in Ha; lia).
    destruct (get_instrument_by client 1 (Api.figi position) (world st))
      as [[[[info|]]|e] w'] eqn:E.
    + rewrite (process_position_found _ _ _ _ _ Ha E).
      eexists _, _. repeat split. apply dict_set_all_positive; assumption.
    + rewrite (process_position_empty _ _ _ _ Ha E).
      eexists _, _. repeat split. assumption.
    + rewrite (process_position_raise _ _ _ _ _ Ha E).
      eexists _, _. repeat split. apply dict_set_all_positive; assumption.
  - rewrite (process_position_inactive _ _ _ Ha).
    eexists _, _. repeat split. assumption.
Qed.

Lemma process_positions_ok records positions st :
  all_positive positions ->
  exists positions' st',
    process_positions client records positions st = (Ok positions', st')
    /\ stdout st' = stdout st /\ all_positive positions'.
Proof.
  revert positions st.
  induction records as [|position rest IH]; intros positions st Hall; simpl.
  - eexists _, _. repeat split. assumption.
  - destruct (process_position_ok positions position st Hall)
      as (p1 & st1 & E1 & Hout1 & Hall1).
    rewrite (bind_run _ _ _ _ _ E1).
    destruct (IH p1 st1 Hall1) as (p2 & st2 & E2 & Hout2 & Hall2).
    exists p2, st2. repeat split; [exact E2 | congruence | exact Hall2].
Qed.

(** Records that fail the test of line 53 leave no trace. *)
Lemma process_positions_filter records positions st :
  process_positions client records positions st
  = process_positions client (filter active records) positions st.
Proof.
  revert positions st.
  induction records as [|position rest IH]; intros positions st; simpl.
  - reflexivity.
  - destruct (active position) eqn:Ha; simpl.
    + unfold bind.
      destruct (process_position client positions position st)
        as [[p1|e] st1]; [apply IH | reflexivity].
    + rewrite (bind_run _ _ _ _ _ (process_position_inactive _ _ _ Ha)).
      apply IH.
Qed.
End Fetcher.

(* ===================================================================== *)
(** * Fetcher: claims *)
(* ===================================================================== *)

Lemma process_positions_only_active {W} (client : Client W) records positions st :
  process_positions (only_active_records client) records positions st
  = process_positions client records positions st.
Proof.
  revert positions st.
  induction records as [|position rest IH]; intros positions st; simpl.
  - reflexivity.
  - unfold bind.
    change (process_position (only_active_records client) positions position st)
      with (process_position client positions position st).
    destruct (process_position client positions position st) as [[p1|e] st1];
      [apply IH | reflexivity].
Qed.

(** The fetcher, case by case on what the service answers. *)
Lemma get_portfolio_composition_run {W} (client : Client W) (st : State W) :
  get_portfolio_composition client st =
  match get_accounts client (world st) with
  | (Raise e, w1) =>
      (Ok None,
       {| world := w1;
          stdout := stdout st ++ [lit "❌ Ошибка при получении портфеля: " ++ e];
          logfile := logfile st ++ [lit "Ошибка при получении портфеля: " ++ e] |})
  | (Ok accounts, w1) =>
      match find (fun acc => Api.type acc =? 1) accounts with
      | None =>
          (Ok None,
           {| world := w1;
              stdout := stdout st ++ [lit "❌ Брокерский счет не найден"];
              logfile := logfile st |})
      | Some account =>
          let shown :=
            stdout st ++ [lit "✅ Используем счет: " ++ Api.id account] in
          match get_portfolio client (Api.id account) w1 with
          | (Raise e, w2) =>
              (Ok None,
               {| world := w2;
                  stdout := shown
                    ++ [lit "❌ Ошибка при получении портфеля: " ++ e];
                  logfile := logfile st
                    ++ [lit "Ошибка при получении портфеля: " ++ e] |})
          | (Ok records, w2) =>
              match process_positions client records []
                      {| world := w2; stdout := shown; logfile := logfile st |}
              with
              | (Ok positions, st') => (Ok (Some positions), st')
              | (Raise e, st') =>
                  (Ok None,
                   {| world := world st';
                      stdout := stdout st'
                        ++ [lit "❌ Ошибка при получении портфеля: " ++ e];
                      logfile := logfile st'
                        ++ [lit "Ошибка при получении портфеля: " ++ e] |})
              end
          end
      end
  end.
Proof.
  unfold get_portfolio_composition, try_except, bind, call, print,
    logging_error, ret.
  destruct (get_accounts client (world st)) as [[accounts|e] w1];
    [|reflexivity].
  destruct (find (fun acc => Api.type acc =? 1) accounts) as [account|];
    [|reflexivity].
  cbn [world stdout logfile].
  destruct (get_portfolio client (Api.id account) w1) as [[records|e] w2];
    [|reflexivity].
  destruct (process_positions client records [] _) as [[positions|e] st'];
    reflexivity.
Qed.

(** C6: the fetcher returns what it would return had the snapshot come
    without the records whose integer units are not positive, it always
    returns, and every position of the dictionary it returns has a
    positive quantity. *)
Theorem fetcher_discards_non_positive
    (W : Type) (client : Client W) (st : State W) :
  get_portfolio_composition client st
  = get_portfolio_composition (only_active_records client) st /\
  exists r st',
    get_portfolio_composition client st = (Ok r, st') /\
    match r with
    | Some positions => all_positive positions
    | None => True
    end.
Proof.
  rewrite !get_portfolio_composition_run.
  cbn [get_accounts get_portfolio only_active_records].
  destruct (get_accounts client (world st)) as [[accounts|e] w1].
  2: { split; [reflexivity|]. eexists _, _. split; [reflexivity | exact I]. }
  destruct (find (fun acc => Api.type acc =? 1) accounts) as [account|].
  2: { split; [reflexivity|]. eexists _, _. split; [reflexivity | exact I]. }
  cbv zeta.
  destruct (get_portfolio client (Api.id account) w1) as [[records|e] w2].
  2: { split; [reflexivity|]. eexists _, _. split; [reflexivity | exact I]. }
  rewrite process_positions_only_active, <- process_positions_filter.
  split; [reflexivity|].
  match goal with
  | |- context [process_positions client records [] ?s] =>
      destruct (process_positions_ok client records [] s) as
        (positions & st' & E & _ & Hall); [constructor|]; rewrite E
  end.
  eexists _, _. split; [reflexivity | exact Hall].
Qed.

Example fetcher_filters_sample :
  get_portfolio_composition
    (stub_client (Ok [broker_account])
       (Ok [record "BBG000000001" 0; record "BBG000000002" 7;
            record "BBG000000003" (-2)])
       lookup_found)
    empty_state
  = (Ok (Some [(lit "BBG000000002",
                {| quantity := 7; name := lit "Instrument BBG000000002";
                   ticker := lit "BBG0" |})]),
     {| world := tt; stdout := [lit "✅ Используем счет: 2000000001"];
        logfile := [] |}).
Proof. vm_compute. reflexivity. Qed.

(** C2 at a lookup that answers without instrument: the record with ten
    units is not in the returned dictionary, and nothing is logged; where
    the lookup raises, the same record is kept under the fallback name and
    the first eight characters of its identifier. *)
Theorem lookup_without_instrument_drops_position :
  get_portfolio_composition
    (stub_client (Ok [broker_account]) (Ok [record "FIGI00001" 10])
       lookup_empty)
    empty_state
  = (Ok (Some []),
     {| world := tt; stdout := [lit "✅ Используем счет: 2000000001"];
        logfile := [] |})
  /\
  get_portfolio_composition
    (stub_client (Ok [broker_account]) (Ok [record "FIGI00001" 10])
       lookup_raises)
    empty_state
  = (Ok (Some [(lit "FIGI00001",
                {| quantity := 10; name := lit "Неизвестно";
                   ticker := lit "FIGI0000" |})]),
     {| world := tt; stdout := [lit "✅ Используем счет: 2000000001"];
        logfile :=
          [lit "Ошибка при получении информации об инструменте FIGI00001: NOT_FOUND"] |}).
Proof. split; vm_compute; reflexivity. Qed.

(* ===================================================================== *)
(** * Failure of the account listing or of the portfolio retrieval *)
(* ===================================================================== *)

Lemma fetch_fails_run {W} (client : Client W) w e w' shown out log :
  fetch_fails client w e w' shown ->
  get_portfolio_composition client
    {| world := w; stdout := out; logfile := log |}
  = (Ok None,
     {| world := w';
        stdout := out ++ shown ++ [lit "❌ Ошибка при получении портфеля: " ++ e];
        logfile := log ++ [lit "Ошибка при получении портфеля: " ++ e] |}).
Proof.
  intros Hfail. rewrite get_portfolio_composition_run.
  cbn [world stdout logfile].
  destruct Hfail
    as [[Hacc ->] | (accounts & w1 & account & Hacc & Hfind & Hport & ->)].
  - rewrite Hacc. reflexivity.
  - rewrite Hacc, Hfind. cbv zeta. rewrite Hport.
    rewrite <- app_assoc. reflexivity.
Qed.

(** Whatever the positions, the reporter's first line is one of two. *)
Lemma report_starts_with_first_line positions :
  exists line rest,
    report_lines positions = line :: rest /\ reporter_first_line line.
Proof.
  unfold report_lines, reporter_first_line.
  destruct (negb (truthy positions)).
  - exists no_data_line, []. split; [reflexivity | left; reflexivity].
  - unfold report_header. cbv zeta. cbn [app].
    eexists _, _. split; [reflexivity | right; reflexivity].
Qed.

(** [main], case by case on what the service answers. *)
Lemma main_run {W} (TOKEN : option str) (client : Client W) (st : State W) :
  main TOKEN client st =
  if negb (truthy_opt TOKEN) then
    (Ok tt,
     emit [ lit "❌ Не найден токен TINKOFF_TOKEN в переменных окружения";
            lit "💡 Создайте файл .env с содержимым:";
            lit "TINKOFF_TOKEN=ваш_токен_здесь" ] st)
  else
    let greeting :=
      [ lit "🚀 Запуск анализа состава портфеля через API Tinkoff...";
        lit "✅ Токен найден: " ++ slice_to 10 (unwrap TOKEN) ++ lit "..." ] in
    match open_session client (unwrap TOKEN) (world st) with
    | (Raise e, w0) =>
        (Ok tt,
         critical e {| world := w0; stdout := stdout st ++ greeting;
                       logfile := logfile st |})
    | (Ok _, w0) =>
        match get_portfolio_composition client
                {| world := w0;
                   stdout := stdout st ++ greeting
                               ++ [lit "✅ Подключение к API успешно"];
                   logfile := logfile st |}
        with
        | (Ok positions, st') =>
            (Ok tt,
             closed client
               (emit (if truthy_opt positions
                      then report_lines (unwrap positions)
                      else [lit "❌ Не удалось получить данные портфеля"])
                     st'))
        | (Raise e, st') => (Ok tt, critical e (closed client st'))
        end
    end.
Proof.
  unfold main. destruct (negb (truthy_opt TOKEN)).
  - rewrite !bind_print, print_run, !emit_emit. reflexivity.
  - cbv zeta. rewrite !bind_print, emit_emit. cbn [app].
    unfold try_except, with_client, call. cbn [world emit stdout logfile].
    destruct (open_session client (unwrap TOKEN) (world st)) as [[[]|e] w0].
    + rewrite bind_print. unfold bind, emit, closed, critical.
      cbn [world stdout logfile]. rewrite <- app_assoc. cbn [app].
      destruct (get_portfolio_composition client _) as [[positions|e] st'].
      * destruct (truthy_opt positions);
          [rewrite display_run | rewrite print_run]; reflexivity.
      * unfold logging_error, print. cbn [world stdout logfile].
        rewrite <- !app_assoc. reflexivity.
    + unfold bind, logging_error, print. cbn [world stdout logfile].
      unfold critical. cbn [world stdout logfile].
      rewrite <- !app_assoc. reflexivity.
Qed.

(** C9: when the account listing or the portfolio retrieval raises, the
    fetcher returns [None] after logging and printing the error; [main]
    then ends normally, having printed its own lines, the error and the
    no-data message of the caller, and none of the lines with which a
    report starts. *)
Theorem fetch_failure_shows_no_report
    (W : Type) (client : Client W) (TOKEN : option str) (st : State W)
    (w0 w' : W) (e : exn) (shown : list str)
    (Htoken : truthy_opt TOKEN = true)
    (Hopen : open_session client (unwrap TOKEN) (world st) = (Ok tt, w0))
    (Hfail : fetch_fails client w0 e w' shown) :
  let caller_lines :=
    [ lit "🚀 Запуск анализа состава портфеля через API Tinkoff...";
      lit "✅ Токен найден: " ++ slice_to 10 (unwrap TOKEN) ++ lit "...";
      lit "✅ Подключение к API успешно" ]
    ++ shown
    ++ [ lit "❌ Ошибка при получении портфеля: " ++ e;
         lit "❌ Не удалось получить данные портфеля" ] in
  (forall out log,
      get_portfolio_composition client
        {| world := w0; stdout := out; logfile := log |}
      = (Ok None,
         {| world := w';
            stdout := out ++ shown
                        ++ [lit "❌ Ошибка при получении портфеля: " ++ e];
            logfile := log ++ [lit "Ошибка при получении портфеля: " ++ e] |}))
  /\ main TOKEN client st
     = (Ok tt,
        {| world := close_session client w';
           stdout := stdout st ++ caller_lines;
           logfile := logfile st
                        ++ [lit "Ошибка при получении портфеля: " ++ e] |})
  /\ forall line, In line caller_lines -> ~ reporter_first_line line.
Proof.
  intros caller_lines. split; [|split].
  - intros out log. apply fetch_fails_run. exact Hfail.
  - rewrite main_run, Htoken. cbn [negb]. cbv zeta. rewrite Hopen.
    rewrite (fetch_fails_run client w0 e w' shown _ _ Hfail).
    cbn [truthy_opt]. unfold closed, emit. cbn [world stdout logfile].
    unfold caller_lines. f_equal. f_equal.
    rewrite <- !app_assoc. reflexivity.
  - intros line HIn. unfold caller_lines in HIn.
    assert (Hshown : forall l, In l shown -> ~ reporter_first_line l).
    { destruct Hfail as [[_ ->] | (accounts & w1 & account & _ & _ & _ & ->)];
        intros l [].
      - subst l. intros [H | H]; vm_compute in H; discriminate.
      - contradiction. }
    simpl in HIn. destruct HIn as [<- | [<- | [<- | HIn]]];
      try (intros [H | H]; vm_compute in H; discriminate).
    apply in_app_or in HIn. destruct HIn as [HIn | [<- | [<- | []]]];
      try (intros [H | H]; vm_compute in H; discriminate).
    apply Hshown. exact HIn.
Qed.

Lemma fetch_failure_shows_no_report_witness :
  main (Some (lit "t.0123456789abcdef"))
    (stub_client (Raise (lit "UNAUTHENTICATED")) (Ok []) lookup_found)
    empty_state
  = (Ok tt,
     {| world := tt;
        stdout :=
          [ lit "🚀 Запуск анализа состава портфеля через API Tinkoff...";
            lit "✅ Токен найден: "
              ++ slice_to 10 (lit "t.0123456789abcdef") ++ lit "...";
            lit "✅ Подключение к API успешно";
            lit "❌ Ошибка при получении портфеля: " ++ lit "UNAUTHENTICATED";
            lit "❌ Не удалось получить данные портфеля" ];
        logfile :=
          [lit "Ошибка при получении портфеля: " ++ lit "UNAUTHENTICATED"] |}).
Proof.
  assert (Htoken : truthy_opt (Some (lit "t.0123456789abcdef")) = true).
  { cbv [truthy_opt truthy].
    destruct (lit "t.0123456789abcdef") eqn:E;
      [vm_compute in E; discriminate | reflexivity]. }
  exact (proj1 (proj2
    (fetch_failure_shows_no_report unit
       (stub_client (Raise (lit "UNAUTHENTICATED")) (Ok []) lookup_found)
       (Some (lit "t.0123456789abcdef")) empty_state tt tt
       (lit "UNAUTHENTICATED") []
       Htoken eq_refl (or_introl (conj eq_refl eq_refl))))).
Defined.

(* ===================================================================== *)
(** * Formatter *)
(* ===================================================================== *)

Lemma uint_digits_are_digits d : Forall is_digit (uint_digits d).
Proof.
  induction d; simpl; constructor; auto; unfold is_digit; lia.
Qed.

Lemma uint_digits_nil d : uint_digits d = [] -> d = Decimal.Nil.
Proof. destruct d; simpl; [reflexivity | discriminate ..]. Qed.

Lemma abs_digits_nonempty z : abs_digits z <> [].
Proof.
  unfold abs_digits. intros H. apply uint_digits_nil in H.
  destruct (Z.abs_N z) as [|p]; simpl in H; [discriminate|].
  exact (DecimalPos.Unsigned.to_uint_nonnil p H).
Qed.

Lemma digits_value_acc d acc :
  fold_left (fun a c => 10 * a + (Z.of_N c - 48)) (uint_digits d) (Z.pos acc)
  = Z.pos (Pos.of_uint_acc d acc).
Proof.
  revert acc; induction d; intros acc;
    cbn [uint_digits fold_left Pos.of_uint_acc]; try reflexivity;
    rewrite <- IHd; f_equal; lia.
Qed.

Lemma digits_value d : int_of_digits (uint_digits d) = Z.of_N (Pos.of_uint d).
Proof.
  unfold int_of_digits.
  induction d; cbn [uint_digits fold_left Pos.of_uint]; try reflexivity;
    try exact IHd; apply (digits_value_acc d).
Qed.

(** The digits printed for [z] denote [|z|]. *)
Lemma abs_digits_value z : int_of_digits (abs_digits z) = Z.abs z.
Proof.
  unfold abs_digits. rewrite digits_value.
  change (Pos.of_uint ?d) with (N.of_uint d).
  rewrite DecimalN.Unsigned.of_to. apply N2Z.inj_abs_N.
Qed.

(** Induction over a string three characters at a time. *)
Lemma str3_ind (P : str -> Prop) :
  (forall ds, (List.length ds <= 3)%nat -> P ds) ->
  (forall a b c d more, P (d :: more) -> P (a :: b :: c :: d :: more)) ->
  forall ds, P ds.
Proof.
  intros Hshort Hlong ds.
  assert (H : forall n ds, (List.length ds <= n)%nat -> P ds).
  { induction n as [|n IH]; intros l Hl.
    - apply Hshort. lia.
    - destruct l as [|a [|b [|c [|d more]]]];
        try (apply Hshort; simpl; lia).
      apply Hlong. apply IH. simpl in *. lia. }
  apply (H (List.length ds)). lia.
Qed.

Lemma group_thousands_rev_short sep ds :
  (List.length ds <= 3)%nat -> group_thousands_rev sep ds = ds.
Proof.
  destruct ds as [|a [|b [|c [|d more]]]]; simpl; try reflexivity. lia.
Qed.

Lemma group_thousands_rev_spec sep ds :
  ds <> [] -> grouped_by_three sep (rev ds) (rev (group_thousands_rev sep ds)).
Proof.
  pattern ds. apply str3_ind; clear ds.
  - intros ds Hlen Hne. rewrite group_thousands_rev_short by exact Hlen.
    exists (rev ds), []. simpl. rewrite !app_nil_r, length_rev.
    repeat split; try lia; [|constructor].
    destruct ds; [congruence | simpl; lia].
  - intros a b c d more IH _.
    destruct IH as (first & rest & Hout & Hfirst & Hrest & Hdigits);
      [discriminate|].
    exists first, (rest ++ [[c; b; a]]).
    change (group_thousands_rev sep (a :: b :: c :: d :: more))
      with (a :: b :: c :: sep :: group_thousands_rev sep (d :: more)).
    change (rev (a :: b :: c :: sep :: ?l)) with ((((rev l ++ [sep]) ++ [c]) ++ [b]) ++ [a]).
    change (rev (a :: b :: c :: ?l)) with (((rev l ++ [c]) ++ [b]) ++ [a]).
    rewrite Hout, <- Hdigits, map_app, !concat_app. simpl.
    rewrite <- !app_assoc. simpl. rewrite ?app_nil_r.
    repeat split; try lia.
    apply Forall_app. split; [exact Hrest | repeat constructor].
Qed.

Lemma replace_group ds :
  Forall (fun c => c <> comma) ds ->
  replace_char comma space (group_thousands_rev comma ds)
  = group_thousands_rev space ds.
Proof.
  assert (Hmap : forall l, Forall (fun c => c <> comma) l ->
                           replace_char comma space l = l).
  { induction 1 as [|x l Hx _ IH]; [reflexivity|].
    unfold replace_char in *. cbn [map]. rewrite IH. unfold chr_eqb.
    apply N.eqb_neq in Hx. rewrite Hx. reflexivity. }
  pattern ds. apply str3_ind; clear ds.
  - intros ds Hlen Hall.
    rewrite !group_thousands_rev_short by exact Hlen. apply Hmap, Hall.
  - intros a b c d more IH Hall. change (group_thousands_rev ?s (a :: b :: c :: d :: more))
      with (a :: b :: c :: s :: group_thousands_rev s (d :: more)).
    inversion Hall as [|? ? Ha H1]; subst.
    inversion H1 as [|? ? Hb H2]; subst.
    inversion H2 as [|? ? Hc H3]; subst.
    unfold replace_char in *. cbn [map]. rewrite (IH H3).
    unfold chr_eqb. apply N.eqb_neq in Ha, Hb, Hc. rewrite Ha, Hb, Hc.
    reflexivity.
Qed.

Lemma format_quantity_nonneg quantity :
  0 <= quantity ->
  format_quantity quantity
  = rev (group_thousands_rev space (rev (abs_digits quantity))).
Proof.
  intros H. unfold format_quantity, format_comma.
  destruct (quantity <? 0) eqn:E; [apply Z.ltb_lt in E; lia|].
  unfold replace_char. rewrite map_rev. f_equal. apply replace_group.
  apply Forall_rev. eapply Forall_impl; [|apply uint_digits_are_digits].
  unfold is_digit, comma. intros c Hc. lia.
Qed.

(** C8: for a quantity that is not negative the formatter prints its
    decimal digits, a first group of one to three and then groups of
    three, each preceded by a single space; 0, 999, 1000, 1234567 and
    12345 come out as "0", "999", "1 000", "1 234 567" and "12 345". *)
Theorem format_quantity_groups (quantity : Z) (Hq : 0 <= quantity) :
  Forall is_digit (str_of_int quantity) /\
  int_of_digits (str_of_int quantity) = quantity /\
  grouped_by_three space (str_of_int quantity) (format_quantity quantity) /\
  format_quantity 0 = lit "0" /\
  format_quantity 999 = lit "999" /\
  format_quantity 1000 = lit "1 000" /\
  format_quantity 1234567 = lit "1 234 567" /\
  format_quantity 12345 = lit "12 345".
Proof.
  assert (Hstr : str_of_int quantity = abs_digits quantity).
  { unfold str_of_int. destruct (quantity <? 0) eqn:E; [|reflexivity].
    apply Z.ltb_lt in E. lia. }
  rewrite Hstr. split; [apply uint_digits_are_digits|].
  split; [rewrite abs_digits_value; lia|].
  split; [|repeat split; reflexivity].
  rewrite format_quantity_nonneg by exact Hq.
  rewrite <- (rev_involutive (abs_digits quantity)) at 1.
  apply group_thousands_rev_spec.
  intros H. apply (abs_digits_nonempty quantity).
  rewrite <- (rev_involutive (abs_digits quantity)), H. reflexivity.
Qed.

Lemma format_quantity_groups_witness :
  grouped_by_three space (lit "1234567") (lit "1 234 567").
Proof.
  exact (proj1 (proj2 (proj2 (format_quantity_groups 1234567 ltac:(lia))))).
Defined.

(* ===================================================================== *)
(** * Fetcher: further properties of the loop *)
(* ===================================================================== *)

Section LoopEffects.
Context {W : Type} (client : Client W).
Implicit Types (st : State W) (positions : dict PositionData).

(** One iteration: it returns, prints nothing, logs at most one message,
    touches no entry but the one of the record's identifier, keeps the
    identifiers distinct, and stores only what belongs to the record. *)
Lemma process_position_effects positions position st :
  exists positions' st',
    process_position client positions position st = (Ok positions', st')
    /\ stdout st' = stdout st
    /\ (exists log, logfile st' = logfile st ++ log
                    /\ (List.length log <= if active position then 1 else 0)%nat)
    /\ (forall k, k <> Api.figi position ->
                  dict_get k positions' = dict_get k positions)
    /\ (NoDup (dict_keys positions) -> NoDup (dict_keys positions'))
    /\ (forall figi data, In (figi, data) positions' ->
          In (figi, data) positions
          \/ (figi = Api.figi position /\ stored_for position data)).
Proof.
  assert (Hset : forall data, forall k, k <> Api.figi position ->
            dict_get k (dict_set (Api.figi position) data positions)
            = dict_get k positions).
  { intros data k Hk. rewrite dict_get_set.
    destruct (str_eqb (Api.figi position) k) eqn:E; [|reflexivity].
    apply str_eqb_eq in E. congruence. }
  assert (Hin : forall data figi d, stored_for position data ->
            In (figi, d) (dict_set (Api.figi position) data positions) ->
            In (figi, d) positions
            \/ (figi = Api.figi position /\ stored_for position d)).
  { intros data figi d Hst. clear Hset.
    induction positions as [|[k v] rest IH]; simpl.
    - intros [[= <- <-] | []]. right. split; [reflexivity | exact Hst].
    - destruct (str_eqb k (Api.figi position)) eqn:E; simpl.
      + apply str_eqb_eq in E. subst k.
        intros [[= <- <-] | HIn]; [right; split; [reflexivity | exact Hst] | auto].
      + intros [Heq | HIn]; [auto|]. destruct (IH HIn); auto. }
  destruct (active position) eqn:Ha.
  - destruct (get_instrument_by client 1 (Api.figi position) (world st))
      as [[[[info|]]|e] w'] eqn:E.
    + rewrite (process_position_found _ _ _ _ _ _ Ha E).
      eexists _, _. split; [reflexivity|]. cbn [stdout logfile].
      split; [reflexivity|]. split.
      { exists []. rewrite app_nil_r. split; [reflexivity | simpl; lia]. }
      split; [apply Hset|]. split; [apply dict_set_NoDup|].
      intros figi data. apply Hin. split; [exact Ha|]. left. exists info.
      reflexivity.
    + rewrite (process_position_empty _ _ _ _ _ Ha E).
      eexists _, _. split; [reflexivity|]. cbn [stdout logfile].
      split; [reflexivity|]. split.
      { exists []. rewrite app_nil_r. split; [reflexivity | simpl; lia]. }
      split; [reflexivity|]. split; auto.
    + rewrite (process_position_raise _ _ _ _ _ _ Ha E).
      eexists _, _. split; [reflexivity|]. cbn [stdout logfile].
      split; [reflexivity|]. split.
      { eexists. split; [reflexivity | simpl; lia]. }
      split; [apply Hset|]. split; [apply dict_set_NoDup|].
      intros figi data. apply Hin. split; [exact Ha|]. right. reflexivity.
  - rewrite (process_position_inactive _ _ _ _ Ha).
    eexists _, _. split; [reflexivity|]. split; [reflexivity|]. split.
    { exists []. rewrite app_nil_r. split; [reflexivity | simpl; lia]. }
    split; [reflexivity|]. split; auto.
Qed.

(** X1: the loop over the snapshot never raises and never prints, whatever
    the instrument lookups answer; it logs at most one message per record
    with positive units, keeps identifiers distinct, leaves untouched every
    entry whose identifier no such record carries, and every entry it
    returns is either one it started from or what it stores for a record
    with positive units. *)
Theorem snapshot_loop_effects records positions st :
  exists positions' st',
    process_positions client records positions st = (Ok positions', st')
    /\ stdout st' = stdout st
    /\ (exists log, logfile st' = logfile st ++ log
                    /\ (List.length log <= List.length (filter active records))%nat)
    /\ (forall k, (forall record, In record records -> active record = true ->
                                   Api.figi record <> k) ->
                  dict_get k positions' = dict_get k positions)
    /\ (NoDup (dict_keys positions) -> NoDup (dict_keys positions'))
    /\ (forall figi data, In (figi, data) positions' ->
          In (figi, data) positions
          \/ exists record, In record records /\ Api.figi record = figi
                            /\ stored_for record data).
Proof.
  revert positions st.
  induction records as [|position rest IH]; intros positions st.
  - exists positions, st. split; [reflexivity|]. split; [reflexivity|]. split.
    { exists []. rewrite app_nil_r. split; [reflexivity | simpl; lia]. }
    repeat split; auto.
  - destruct (process_position_effects positions position st)
      as (p1 & st1 & E1 & Hout1 & (log1 & Hlog1 & Hlen1) & Hframe1 & Hnd1 & Hin1).
    destruct (IH p1 st1)
      as (p2 & st2 & E2 & Hout2 & (log2 & Hlog2 & Hlen2) & Hframe2 & Hnd2 & Hin2).
    exists p2, st2. cbn [process_positions].
    rewrite (bind_run _ _ _ _ _ E1). split; [exact E2|].
    split; [congruence|]. split.
    { exists (log1 ++ log2). rewrite Hlog2, Hlog1, app_assoc.
      split; [reflexivity|]. rewrite length_app. cbn [filter].
      destruct (active position); simpl; lia. }
    split.
    { intros k Hk. rewrite Hframe2.
      - destruct (active position) eqn:Ha.
        + apply Hframe1. intros Heq. apply (Hk position); auto. left. reflexivity.
        + rewrite (process_position_inactive _ _ _ _ Ha) in E1.
          injection E1 as <- _. reflexivity.
      - intros record HIn. apply Hk. right. exact HIn. }
    split; [auto|].
    intros figi data HIn. destruct (Hin2 figi data HIn) as [H1 | (r & Hr & Hf & Hs)].
    + destruct (Hin1 figi data H1) as [H0 | [Hf Hs]]; [left; exact H0|].
      right. exists position. split; [left; reflexivity | auto].
    + right. exists r. split; [right; exact Hr | auto].
Qed.

(** X2: when the lookup for a record with positive units raises, the
    record is stored under its identifier with the fixed unknown name and
    the first eight characters of the identifier as ticker (replacing what
    was stored for that identifier), the failure is logged with identifier
    and cause, and the loop goes on with the remaining records. *)
Theorem lookup_failure_is_logged_and_loop_continues
    position rest positions st e w'
    (Hactive : active position = true)
    (Hraise : get_instrument_by client 1 (Api.figi position) (world st)
              = (Raise e, w')) :
  let positions' :=
    dict_set (Api.figi position) (fallback_data position) positions in
  process_positions client (position :: rest) positions st
  = process_positions client rest positions'
      {| world := w'; stdout := stdout st;
         logfile := logfile st ++ [lookup_error_message position e] |}
  /\ dict_get (Api.figi position) positions' = Some (fallback_data position)
  /\ name (fallback_data position) = lit "Неизвестно"
  /\ ticker (fallback_data position) = firstn 8 (Api.figi position)
  /\ len (ticker (fallback_data position)) <= 8.
Proof.
  intros positions'. split; [|split; [|split; [|split]]].
  - cbn [process_positions].
    rewrite (bind_run _ _ _ _ _
               (process_position_raise client _ _ _ _ _ Hactive Hraise)).
    reflexivity.
  - unfold positions'. rewrite dict_get_set, str_eqb_refl. reflexivity.
  - reflexivity.
  - reflexivity.
  - unfold fallback_data, slice_to, len. cbn [ticker].
    pose proof (firstn_le_length 8 (Api.figi position)). lia.
Qed.

(** X3: when the lookup returns an instrument, the record is stored under
    its identifier with the record's integer units and the instrument's
    name and ticker, replacing what was stored for that identifier; nothing
    is logged or printed, and the loop goes on. *)
Theorem lookup_success_stores_instrument
    position rest positions st info w'
    (Hactive : active position = true)
    (Hfound : get_instrument_by client 1 (Api.figi position) (world st)
              = (Ok {| Api.instrument := Some info |}, w')) :
  let positions' :=
    dict_set (Api.figi position) (found_data position info) positions in
  process_positions client (position :: rest) positions st
  = process_positions client rest positions'
      {| world := w'; stdout := stdout st; logfile := logfile st |}
  /\ dict_get (Api.figi position) positions' = Some (found_data position info)
  /\ (forall k, k <> Api.figi position ->
                dict_get k positions' = dict_get k positions).
Proof.
  intros positions'. split; [|split].
  - cbn [process_positions].
    rewrite (bind_run _ _ _ _ _
               (process_position_found client _ _ _ _ _ Hactive Hfound)).
    reflexivity.
  - unfold positions'. rewrite dict_get_set, str_eqb_refl. reflexivity.
  - intros k Hk. unfold positions'. rewrite dict_get_set.
    destruct (str_eqb (Api.figi position) k) eqn:E; [|reflexivity].
    apply str_eqb_eq in E. congruence.
Qed.
End LoopEffects.

Lemma lookup_failure_is_logged_and_loop_continues_witness :
  process_positions
    (stub_client (Ok [broker_account]) (Ok []) lookup_raises)
    [record "FIGI00001" 10] [] empty_state
  = process_positions
      (stub_client (Ok [broker_account]) (Ok []) lookup_raises) []
      (dict_set (Api.figi (record "FIGI00001" 10))
         (fallback_data (record "FIGI00001" 10)) [])
      {| world := tt; stdout := stdout empty_state;
         logfile := logfile empty_state
           ++ [lookup_error_message (record "FIGI00001" 10) (lit "NOT_FOUND")] |}.
Proof.
  exact (proj1 (lookup_failure_is_logged_and_loop_continues
                  (stub_client (Ok [broker_account]) (Ok []) lookup_raises)
                  (record "FIGI00001" 10) [] [] empty_state
                  (lit "NOT_FOUND") tt eq_refl eq_refl)).
Defined.

Lemma lookup_success_stores_instrument_witness :
  dict_get (Api.figi (record "BBG000000002" 7))
    (dict_set (Api.figi (record "BBG000000002" 7))
       (found_data (record "BBG000000002" 7)
          {| Api.name := lit "Instrument " ++ Api.figi (record "BBG000000002" 7);
             Api.ticker := slice_to 4 (Api.figi (record "BBG000000002" 7)) |})
       [])
  = Some (found_data (record "BBG000000002" 7)
            {| Api.name := lit "Instrument " ++ Api.figi (record "BBG000000002" 7);
               Api.ticker := slice_to 4 (Api.figi (record "BBG000000002" 7)) |}).
Proof.
  exact (proj1 (proj2 (lookup_success_stores_instrument
                  (stub_client (Ok [broker_account]) (Ok []) lookup_found)
                  (record "BBG000000002" 7) [] [] empty_state
                  _ tt eq_refl eq_refl))).
Defined.

(* ===================================================================== *)
(** * Fetcher: further properties of a whole fetch *)
(* ===================================================================== *)

Lemma find_first {A} (p : A -> bool) before x after :
  Forall (fun a => p a = false) before -> p x = true ->
  find p (before ++ x :: after) = Some x.
Proof.
  induction 1 as [|a before Ha _ IH]; simpl; intros Hx.
  - rewrite Hx. reflexivity.
  - rewrite Ha. exact (IH Hx).
Qed.

Lemma find_none_iff {A} (p : A -> bool) l :
  Forall (fun a => p a = false) l -> find p l = None.
Proof.
  induction 1 as [|a l Ha _ IH]; simpl; [reflexivity|].
  rewrite Ha. exact IH.
Qed.

(** X4: the fetcher works on the first account of type 1 of the listing:
    it prints that account's identifier, requests the portfolio of that
    account, and returns the dictionary the loop builds from the records of
    that portfolio, starting from an empty one. *)
Theorem fetch_uses_first_broker_account
    (W : Type) (client : Client W) (st : State W)
    before account after w1 records w2
    (Haccounts : get_accounts client (world st)
                 = (Ok (before ++ account :: after), w1))
    (Hbefore : Forall (fun acc => Api.type acc <> 1) before)
    (Htype : Api.type account = 1)
    (Hportfolio : get_portfolio client (Api.id account) w1 = (Ok records, w2)) :
  exists positions st',
    get_portfolio_composition client st = (Ok (Some positions), st')
    /\ process_positions client records []
         {| world := w2; stdout := stdout st ++ [account_line account];
            logfile := logfile st |}
       = (Ok positions, st')
    /\ stdout st' = stdout st ++ [account_line account].
Proof.
  rewrite get_portfolio_composition_run, Haccounts.
  rewrite (find_first _ before account after).
  - cbv zeta. rewrite Hportfolio.
    match goal with
    | |- context [process_positions client records [] ?s] =>
        destruct (snapshot_loop_effects client records [] s)
          as (positions & st' & E & Hout & _)
    end.
    exists positions, st'. unfold account_line.
    split; [rewrite E; reflexivity|]. split; [exact E | exact Hout].
  - eapply Forall_impl; [|exact Hbefore]. cbv beta. intros a Ha.
    apply Z.eqb_neq. exact Ha.
  - apply Z.eqb_eq. exact Htype.
Qed.

(** X5: whatever the service answers, the fetcher returns normally; it
    prints one or two lines and only appends to the log.  When it returns a
    dictionary, the account listing and the portfolio retrieval succeeded,
    the one line printed names the account used, the identifiers in the
    dictionary are pairwise distinct, and every entry is what the loop
    stores for a record of that portfolio with positive units. *)
Theorem fetch_always_returns
    (W : Type) (client : Client W) (st : State W) :
  exists r st' out log,
    get_portfolio_composition client st = (Ok r, st')
    /\ stdout st' = stdout st ++ out
    /\ (1 <= List.length out <= 2)%nat
    /\ logfile st' = logfile st ++ log
    /\ match r with
       | None => True
       | Some positions =>
           exists accounts w1 account records w2,
             get_accounts client (world st) = (Ok accounts, w1)
             /\ find (fun acc => Api.type acc =? 1) accounts = Some account
             /\ get_portfolio client (Api.id account) w1 = (Ok records, w2)
             /\ out = [account_line account]
             /\ NoDup (dict_keys positions)
             /\ forall figi data, In (figi, data) (dict_items positions) ->
                  exists record, In record records
                                 /\ Api.figi record = figi
                                 /\ stored_for record data
       end.
Proof.
  rewrite get_portfolio_composition_run.
  destruct (get_accounts client (world st)) as [[accounts|e] w1] eqn:Eacc.
  2: { eexists None, _, [_], [_]. repeat split; simpl; lia. }
  destruct (find (fun acc => Api.type acc =? 1) accounts) as [account|] eqn:Ef.
  2: { eexists None, _, [_], []. cbn [stdout logfile].
       rewrite app_nil_r. repeat split; simpl; lia. }
  cbv zeta.
  destruct (get_portfolio client (Api.id account) w1) as [[records|e] w2] eqn:Ep.
  2: { eexists None, _, [_; _], [_]. cbn [stdout logfile].
       rewrite <- app_assoc. repeat split; simpl; lia. }
  match goal with
  | |- context [process_positions client records [] ?s] =>
      destruct (snapshot_loop_effects client records [] s)
        as (positions & st' & E & Hout & (log & Hlog & _) & _ & Hnd & Hin)
  end.
  rewrite E. exists (Some positions), st', [account_line account], log.
  cbn [stdout logfile] in Hout, Hlog.
  split; [reflexivity|]. split; [exact Hout|]. split; [simpl; lia|].
  split; [exact Hlog|].
  exists accounts, w1, account, records, w2.
  repeat split; try reflexivity; try assumption.
  - apply Hnd. constructor.
  - intros figi data HIn. destruct (Hin figi data HIn) as [[] | H]. exact H.
Qed.

(** X6: when the listing has no account of type 1, the fetcher prints that
    no brokerage account was found and returns [None]; it requests no
    portfolio and logs nothing, and [main] then prints its no-data message
    and closes the session without printing a report. *)
Theorem no_broker_account_stops_the_run
    (W : Type) (client : Client W) (TOKEN : option str) (st : State W)
    w0 accounts w1
    (Htoken : truthy_opt TOKEN = true)
    (Hopen : open_session client (unwrap TOKEN) (world st) = (Ok tt, w0))
    (Haccounts : get_accounts client w0 = (Ok accounts, w1))
    (Hnone : Forall (fun acc => Api.type acc <> 1) accounts) :
  (forall out log,
      get_portfolio_composition client
        {| world := w0; stdout := out; logfile := log |}
      = (Ok None,
         {| world := w1; stdout := out ++ [no_broker_line]; logfile := log |}))
  /\ main TOKEN client st
     = (Ok tt,
        {| world := close_session client w1;
           stdout := stdout st ++ greeting_lines TOKEN
                       ++ [connected_line; no_broker_line; no_portfolio_line];
           logfile := logfile st |}).
Proof.
  assert (Hfetch : forall out log,
      get_portfolio_composition client
        {| world := w0; stdout := out; logfile := log |}
      = (Ok None,
         {| world := w1; stdout := out ++ [no_broker_line]; logfile := log |})).
  { intros out log. rewrite get_portfolio_composition_run. cbn [world].
    rewrite Haccounts, find_none_iff; [reflexivity|].
    eapply Forall_impl; [|exact Hnone]. cbv beta. intros a Ha.
    apply Z.eqb_neq. exact Ha. }
  split; [exact Hfetch|].
  rewrite main_run, Htoken. cbn [negb]. cbv zeta. rewrite Hopen, Hfetch.
  cbn [truthy_opt]. unfold closed, emit, greeting_lines, connected_line,
    no_portfolio_line. cbn [world stdout logfile].
  rewrite <- !app_assoc. reflexivity.
Qed.

(** X7: without a token ([None] or the empty string) [main] prints the
    three lines of guidance and stops: the service is not contacted and
    nothing is logged. *)
Theorem missing_token_contacts_nothing
    (W : Type) (client : Client W) (TOKEN : option str) (st : State W)
    (Htoken : TOKEN = None \/ TOKEN = Some []) :
  main TOKEN client st
  = (Ok tt,
     {| world := world st; stdout := stdout st ++ missing_token_lines;
        logfile := logfile st |}).
Proof.
  rewrite main_run. destruct Htoken as [-> | ->]; reflexivity.
Qed.


(** X9: when the session cannot be opened, [main] logs the cause as a
    critical error, prints it with the four lines of advice, and returns;
    no account is listed. *)
Theorem connection_failure_is_reported
    (W : Type) (client : Client W) (TOKEN : option str) (st : State W) e w0
    (Htoken : truthy_opt TOKEN = true)
    (Hopen : open_session client (unwrap TOKEN) (world st) = (Raise e, w0)) :
  main TOKEN client st
  = (Ok tt,
     {| world := w0;
        stdout := stdout st ++ greeting_lines TOKEN
          ++ [ lit "❌ Критическая ошибка: " ++ e; lit "💡 Проверьте:";
               lit "   - Правильность токена";
               lit "   - Доступность API Tinkoff";
               lit "   - Наличие активных позиций в портфеле" ];
        logfile := logfile st ++ [lit "Критическая ошибка: " ++ e] |}).
Proof.
  rewrite main_run, Htoken. cbn [negb]. cbv zeta. rewrite Hopen.
  unfold critical, greeting_lines. cbn [world stdout logfile].
  rewrite <- !app_assoc. reflexivity.
Qed.

(** X10: once the session has been opened, [main] closes it on every way
    out: the final state of the service is the result of [close_session]. *)
Theorem opened_session_is_closed
    (W : Type) (client : Client W) (TOKEN : option str) (st : State W) w0
    (Htoken : truthy_opt TOKEN = true)
    (Hopen : open_session client (unwrap TOKEN) (world st) = (Ok tt, w0)) :
  exists w st',
    main TOKEN client st = (Ok tt, st')
    /\ world st' = close_session client w.
Proof.
  rewrite main_run, Htoken. cbn [negb]. cbv zeta. rewrite Hopen.
  match goal with
  | |- context [get_portfolio_composition client ?s] =>
      destruct (fetch_always_returns W client s) as (r & st1 & ? & ? & E & _)
  end.
  rewrite E. exists (world st1). eexists. split; reflexivity.
Qed.

Lemma sample_token_truthy : truthy_opt sample_token = true.
Proof. vm_compute. reflexivity. Qed.

Lemma fetch_uses_first_broker_account_witness :
  exists positions st',
    get_portfolio_composition
      (sample_client [record "BBG000000002" 7] lookup_found) empty_state
    = (Ok (Some positions), st')
    /\ process_positions
         (sample_client [record "BBG000000002" 7] lookup_found)
         [record "BBG000000002" 7] []
         {| world := tt;
            stdout := stdout empty_state ++ [account_line broker_account];
            logfile := logfile empty_state |}
       = (Ok positions, st')
    /\ stdout st' = stdout empty_state ++ [account_line broker_account].
Proof.
  exact (fetch_uses_first_broker_account unit
           (sample_client [record "BBG000000002" 7] lookup_found) empty_state
           [] broker_account [] tt [record "BBG000000002" 7] tt
           eq_refl (Forall_nil _) eq_refl eq_refl).
Defined.

Lemma no_broker_account_stops_the_run_witness :
  main sample_token (stub_client (Ok []) (Ok []) lookup_found) empty_state
  = (Ok tt,
     {| world := tt;
        stdout := stdout empty_state ++ greeting_lines sample_token
                    ++ [connected_line; no_broker_line; no_portfolio_line];
        logfile := logfile empty_state |}).
Proof.
  exact (proj2 (no_broker_account_stops_the_run unit
                  (stub_client (Ok []) (Ok []) lookup_found)
                  sample_token empty_state tt [] tt
                  sample_token_truthy eq_refl eq_refl (Forall_nil _))).
Defined.

Lemma missing_token_contacts_nothing_witness :
  main (Some []) refusing_client empty_state
  = (Ok tt,
     {| world := tt; stdout := stdout empty_state ++ missing_token_lines;
        logfile := logfile empty_state |}).
Proof.
  exact (missing_token_contacts_nothing unit refusing_client (Some [])
           empty_state (or_intror eq_refl)).
Defined.

Lemma connection_failure_is_reported_witness :
  main sample_token refusing_client empty_state
  = (Ok tt,
     {| world := tt;
        stdout := stdout empty_state ++ greeting_lines sample_token
          ++ [ lit "❌ Критическая ошибка: " ++ lit "UNAVAILABLE";
               lit "💡 Проверьте:";
               lit "   - Правильность токена";
               lit "   - Доступность API Tinkoff";
               lit "   - Наличие активных позиций в портфеле" ];
        logfile := logfile empty_state
          ++ [lit "Критическая ошибка: " ++ lit "UNAVAILABLE"] |}).
Proof.
  exact (connection_failure_is_reported unit refusing_client sample_token
           empty_state (lit "UNAVAILABLE") tt sample_token_truthy eq_refl).
Defined.

Lemma opened_session_is_closed_witness :
  exists w st',
    main sample_token (sample_client [] lookup_found) empty_state = (Ok tt, st')
    /\ world st' = close_session (sample_client [] lookup_found) w.
Proof.
  exact (opened_session_is_closed unit (sample_client [] lookup_found)
           sample_token empty_state tt sample_token_truthy eq_refl).
Defined.

Lemma filter_active_none records :
  Forall (fun r => Api.units (Api.quantity r) <= 0) records ->
  filter active records = [].
Proof.
  induction 1 as [|r records Hr _ IH]; [reflexivity|].
  cbn [filter]. unfold active at 1.
  destruct (Api.units (Api.quantity r) >? 0) eqn:E; [|exact IH].
  apply Z.gtb_lt in E. lia.
Qed.

(** X11: when the portfolio of the brokerage account has no record with
    positive units, no instrument is looked up and nothing is logged; the
    fetcher returns an empty dictionary, and [main] prints its no-data
    message instead of a report. *)
Theorem no_active_position_gives_no_report
    (W : Type) (client : Client W) (TOKEN : option str) (st : State W)
    w0 accounts w1 account records w2
    (Htoken : truthy_opt TOKEN = true)
    (Hopen : open_session client (unwrap TOKEN) (world st) = (Ok tt, w0))
    (Haccounts : get_accounts client w0 = (Ok accounts, w1))
    (Hfind : find (fun acc => Api.type acc =? 1) accounts = Some account)
    (Hportfolio : get_portfolio client (Api.id account) w1 = (Ok records, w2))
    (Hunits : Forall (fun r => Api.units (Api.quantity r) <= 0) records) :
  (forall out log,
      get_portfolio_composition client
        {| world := w0; stdout := out; logfile := log |}
      = (Ok (Some []),
         {| world := w2; stdout := out ++ [account_line account];
            logfile := log |}))
  /\ main TOKEN client st
     = (Ok tt,
        {| world := close_session client w2;
           stdout := stdout st ++ greeting_lines TOKEN
             ++ [connected_line; account_line account; no_portfolio_line];
           logfile := logfile st |}).
Proof.
  assert (Hfetch : forall out log,
      get_portfolio_composition client
        {| world := w0; stdout := out; logfile := log |}
      = (Ok (Some []),
         {| world := w2; stdout := out ++ [account_line account];
            logfile := log |})).
  { intros out log. rewrite get_portfolio_composition_run. cbn [world].
    rewrite Haccounts, Hfind. cbv zeta. rewrite Hportfolio.
    rewrite process_positions_filter, filter_active_none by exact Hunits.
    reflexivity. }
  split; [exact Hfetch|].
  rewrite main_run, Htoken. cbn [negb]. cbv zeta. rewrite Hopen, Hfetch.
  cbn [truthy_opt truthy]. unfold closed, emit, greeting_lines, connected_line,
    no_portfolio_line. cbn [world stdout logfile].
  rewrite <- !app_assoc. reflexivity.
Qed.

Lemma no_active_position_gives_no_report_witness :
  main sample_token
    (sample_client [record "BBG000000001" 0; record "BBG000000003" (-2)]
       lookup_found)
    empty_state
  = (Ok tt,
     {| world := tt;
        stdout := stdout empty_state ++ greeting_lines sample_token
          ++ [connected_line; account_line broker_account; no_portfolio_line];
        logfile := logfile empty_state |}).
Proof.
  refine (proj2 (no_active_position_gives_no_report unit
                  (sample_client
                     [record "BBG000000001" 0; record "BBG000000003" (-2)]
                     lookup_found)
                  sample_token empty_state tt [broker_account] tt
                  broker_account
                  [record "BBG000000001" 0; record "BBG000000003" (-2)] tt
                  sample_token_truthy eq_refl eq_refl eq_refl eq_refl _)).
  repeat constructor; cbn; lia.
Defined.

(** X12: a complete successful run.  When the session opens, the listing
    has a brokerage account, its portfolio is retrieved and the loop over
    its records yields a non-empty dictionary, [main] prints its greeting,
    the account used and then the report of exactly that dictionary, logs
    nothing of its own, and closes the session. *)
Theorem successful_run_prints_the_report
    (W : Type) (client : Client W) (TOKEN : option str) (st : State W)
    w0 accounts w1 account records w2 positions st1
    (Htoken : truthy_opt TOKEN = true)
    (Hopen : open_session client (unwrap TOKEN) (world st) = (Ok tt, w0))
    (Haccounts : get_accounts client w0 = (Ok accounts, w1))
    (Hfind : find (fun acc => Api.type acc =? 1) accounts = Some account)
    (Hportfolio : get_portfolio client (Api.id account) w1 = (Ok records, w2))
    (Hloop : process_positions client records []
               {| world := w2;
                  stdout := stdout st ++ greeting_lines TOKEN
                              ++ [connected_line; account_line account];
                  logfile := logfile st |}
             = (Ok positions, st1))
    (Hnonempty : truthy positions = true) :
  main TOKEN client st
  = (Ok tt,
     {| world := close_session client (world st1);
        stdout := stdout st ++ greeting_lines TOKEN
                    ++ [connected_line; account_line account]
                    ++ report_lines positions;
        logfile := logfile st1 |}).
Proof.
  assert (Hout : stdout st1
                 = stdout st ++ greeting_lines TOKEN
                     ++ [connected_line; account_line account]).
  { match type of Hloop with
    | process_positions _ _ _ ?s0 = _ =>
        destruct (snapshot_loop_effects client records [] s0)
          as (p & s & E & Hout & _)
    end.
    rewrite Hloop in E. injection E as <- <-. exact Hout. }
  rewrite main_run, Htoken. cbn [negb]. cbv zeta. rewrite Hopen.
  rewrite get_portfolio_composition_run. cbn [world stdout logfile].
  rewrite Haccounts, Hfind. cbv zeta. rewrite Hportfolio.
  unfold greeting_lines, connected_line, account_line in *.
  rewrite <- !app_assoc in *. cbn [app] in *.
  match type of Hloop with
  | ?lhs = _ =>
      match goal with
      | |- context [process_positions client records [] ?s] =>
          change (process_positions client records [] s) with lhs
      end
  end.
  rewrite Hloop. cbn [truthy_opt unwrap]. rewrite Hnonempty.
  unfold closed, emit. cbn [world stdout logfile].
  rewrite Hout, <- !app_assoc. reflexivity.
Qed.

Lemma successful_run_prints_the_report_witness :
  main sample_token (sample_client [sample_record] lookup_found) empty_state
  = (Ok tt,
     {| world := tt;
        stdout := stdout empty_state ++ greeting_lines sample_token
                    ++ [connected_line; account_line broker_account]
                    ++ report_lines
                         [(Api.figi sample_record,
                           found_data sample_record sample_info)];
        logfile := logfile empty_state |}).
Proof.
  refine (successful_run_prints_the_report unit
            (sample_client [sample_record] lookup_found)
            sample_token empty_state tt [broker_account] tt broker_account
            [sample_record] tt
            [(Api.figi sample_record, found_data sample_record sample_info)]
            {| world := tt;
               stdout := stdout empty_state ++ greeting_lines sample_token
                           ++ [connected_line; account_line broker_account];
               logfile := logfile empty_state |}
            sample_token_truthy eq_refl eq_refl eq_refl eq_refl _ eq_refl).
  cbn [process_positions].
  erewrite bind_run.
  2: { apply (process_position_found
                (sample_client [sample_record] lookup_found) []
                sample_record _ sample_info tt); reflexivity. }
  reflexivity.
Defined.

(* ===================================================================== *)
(** * Classifier: further properties *)
(* ===================================================================== *)

Lemma last_holding_None_inv c k items :
  last_holding c k items = None ->
  forall item, In item items -> classify (snd item) = c ->
               ticker (snd item) <> k.
Proof.
  intros Hnone item HIn Hc Hk.
  exact (last_holding_hit c k items item HIn Hc Hk Hnone).
Qed.

Lemma last_holding_split c k items h :
  last_holding c k items = Some h ->
  exists before figi data after,
    items = before ++ (figi, data) :: after
    /\ classify data = c /\ ticker data = k /\ holding_of data = h
    /\ forall item, In item after -> classify (snd item) = c ->
                    ticker (snd item) <> k.
Proof.
  induction items as [|[figi data] rest IH]; [discriminate|].
  rewrite last_holding_cons. cbn [snd].
  destruct (last_holding c k rest) as [h'|] eqn:E.
  - intros [= <-].
    destruct (IH eq_refl) as (before & f & d & after & -> & H).
    exists ((figi, data) :: before), f, d, after. split; [reflexivity | exact H].
  - destruct (class_eqb c (classify data)) eqn:Ec; [|discriminate].
    destruct (str_eqb (ticker data) k) eqn:Ek; [|discriminate].
    cbn [andb]. intros [= <-].
    apply class_eqb_eq in Ec. apply str_eqb_eq in Ek.
    exists [], figi, data, rest. repeat split; auto.
    apply last_holding_None_inv. exact E.
Qed.

(** X13: what a bucket contains.  Its tickers are pairwise distinct, and
    it maps a ticker to a name and quantity exactly when these are the name
    and quantity of the last position, in iteration order, that has this
    ticker and that the rule sends to this bucket. *)
Theorem bucket_holds_last_position_per_ticker
    (positions : dict PositionData) (c : asset_class) :
  NoDup (dict_keys (bucket c (categorize_assets positions))) /\
  forall k h,
    dict_get k (bucket c (categorize_assets positions)) = Some h <->
    exists before figi data after,
      dict_items positions = before ++ (figi, data) :: after
      /\ classify data = c /\ ticker data = k /\ holding_of data = h
      /\ forall item, In item after -> classify (snd item) = c ->
                      ticker (snd item) <> k.
Proof.
  split; [apply bucket_NoDup|].
  intros k h. rewrite bucket_get. split.
  - apply last_holding_split.
  - intros (before & figi & data & after & -> & Hc & Hk & Hh & Hafter).
    rewrite last_holding_app, last_holding_cons.
    rewrite (last_holding_None _ _ _ Hafter). cbn [snd].
    subst c k h. rewrite class_eqb_refl, str_eqb_refl. reflexivity.
Qed.

Lemma bucket_holds_last_position_per_ticker_witness :
  dict_get (ticker (snd (position_item "BBG000000002" 20 "Сбербанк-п" "SBER")))
    (bucket (classify (snd (position_item "BBG000000002" 20 "Сбербанк-п" "SBER")))
       (categorize_assets clash_positions))
  = Some (holding_of (snd (position_item "BBG000000002" 20 "Сбербанк-п" "SBER"))).
Proof.
  apply (proj2 (bucket_holds_last_position_per_ticker clash_positions _)).
  exists [position_item "BBG000000001" 10 "Сбербанк" "SBER"],
    (lit "BBG000000002"),
    (snd (position_item "BBG000000002" 20 "Сбербанк-п" "SBER")), [].
  repeat split. intros item [].
Defined.

Lemma dict_set_length {V} (k : str) (v : V) (d : dict V) :
  (List.length d <= List.length (dict_set k v d) <= S (List.length d))%nat.
Proof.
  induction d as [|[k0 v0] d IH]; simpl; [lia|].
  destruct (str_eqb k0 k); simpl; lia.
Qed.

Lemma fold_bucket_length c items d :
  (List.length (fold_left (bucket_step c) items d)
   <= List.length d
      + List.length (filter (fun it : str * PositionData =>
                               class_eqb c (classify (snd it))) items))%nat.
Proof.
  revert d; induction items as [|item items IH]; intros d; cbn [fold_left filter].
  - lia.
  - specialize (IH (bucket_step c d item)). unfold bucket_step in *.
    destruct (class_eqb c (classify (snd item))); cbn [List.length] in *.
    + pose proof (dict_set_length (ticker (snd item)) (holding_of (snd item)) d).
      lia.
    + exact IH.
Qed.

Lemma classified_lengths (positions : dict PositionData) :
  (List.length (classified_as Bonds positions)
   + List.length (classified_as Stocks positions)
   + List.length (classified_as Etfs positions)
   + List.length (classified_as Others positions)
   = List.length positions)%nat.
Proof.
  unfold classified_as, dict_items.
  induction positions as [|item items IH]; [reflexivity|].
  cbn [filter]. destruct (classify (snd item));
    cbn [class_eqb List.length filter] in *; lia.
Qed.

(** X14: the four buckets together never have more entries than there are
    positions, and they have exactly as many when no two positions of the
    same bucket share a ticker; each bucket then lists the positions the
    rule sends to it, in the iteration order of the positions. *)
Theorem buckets_have_at_most_one_entry_per_position
    (positions : dict PositionData) :
  (entries_count (categorize_assets positions) <= List.length positions)%nat /\
  (no_ticker_clash positions ->
   (forall c, bucket c (categorize_assets positions)
              = map entry_of (classified_as c positions)) /\
   entries_count (categorize_assets positions) = List.length positions).
Proof.
  unfold entries_count. split.
  - rewrite <- (classified_lengths positions). unfold classified_as.
    rewrite !categorize_assets_bucket.
    pose proof (fold_bucket_length Bonds (dict_items positions) []).
    pose proof (fold_bucket_length Stocks (dict_items positions) []).
    pose proof (fold_bucket_length Etfs (dict_items positions) []).
    pose proof (fold_bucket_length Others (dict_items positions) []).
    cbn [List.length] in *. lia.
  - intros Hclash. split.
    + intros c. apply bucket_no_clash. exact Hclash.
    + rewrite !bucket_no_clash by exact Hclash. rewrite !length_map.
      apply classified_lengths.
Qed.

Lemma buckets_have_at_most_one_entry_per_position_witness :
  entries_count (categorize_assets scenario2_positions)
  = List.length scenario2_positions.
Proof.
  refine (proj2 (proj2 (buckets_have_at_most_one_entry_per_position
                          scenario2_positions) _)).
  unfold no_ticker_clash. vm_compute.
  repeat constructor; simpl; intuition discriminate.
Defined.

Lemma startswith_firstn n s p :
  (List.length p <= n)%nat -> startswith (firstn n s) p = startswith s p.
Proof.
  revert n s; induction p as [|c p IH]; intros n s Hn.
  - destruct (firstn n s), s; reflexivity.
  - destruct n as [|n]; [simpl in Hn; lia|].
    destruct s as [|d s]; [reflexivity|].
    cbn [firstn startswith]. rewrite IH by (simpl in Hn; lia). reflexivity.
Qed.

Lemma lit_length_RU000 : List.length (lit "RU000") = 5%nat.
Proof. vm_compute. reflexivity. Qed.

Lemma lit_length_RU : List.length (lit "RU") = 2%nat.
Proof. vm_compute. reflexivity. Qed.

Lemma lit_T : lit "T" = [84%N].
Proof. vm_compute. reflexivity. Qed.

Lemma lit_RU : lit "RU" = [82%N; 85%N].
Proof. vm_compute. reflexivity. Qed.

Lemma unknown_name_has_no_marker :
  contains (lit "ОФЗ") unknown_name = false /\
  contains (lit "БО") unknown_name = false /\
  contains (lit "ETF") unknown_name = false /\
  contains (lit "фонд") unknown_name = false.
Proof. repeat split; vm_compute; reflexivity. Qed.

(** X15: where a position stored after a failed lookup goes.  Its name has
    none of the markers, so its bucket depends on the identifier alone:
    bonds when the identifier starts with [RU000]; stocks when it has at
    most five characters and does not start with [RU]; other in all
    remaining cases, in particular for every identifier of six or more
    characters that does not start with [RU000].  It is never a fund. *)
Theorem fallback_position_bucket (position : Api.PortfolioPosition) :
  let figi := Api.figi position in
  classify (fallback_data position)
  = (if startswith figi (lit "RU000") then Bonds
     else if (len figi <=? 5) && negb (startswith figi (lit "RU")) then Stocks
     else Others)
  /\ (5 < len figi -> startswith figi (lit "RU000") = false ->
      classify (fallback_data position) = Others).
Proof.
  intros figi.
  destruct unknown_name_has_no_marker as (H1 & H2 & H3 & H4).
  assert (Hclass : classify (fallback_data position)
    = (if startswith figi (lit "RU000") then Bonds
       else if (len figi <=? 5) && negb (startswith figi (lit "RU")) then Stocks
       else Others)).
  { unfold classify, fallback_data, slice_to. cbn [ticker name].
    rewrite H1, H2, H3, H4.
    rewrite !startswith_firstn
      by (rewrite ?lit_length_RU000, ?lit_length_RU, ?lit_T; simpl; lia).
    fold figi. rewrite !orb_false_r, andb_false_r.
    destruct (startswith figi (lit "RU000")); [reflexivity|].
    replace (len (firstn 8 figi) <=? 5) with (len figi <=? 5); [reflexivity|].
    unfold len. rewrite length_firstn.
    destruct (Z.of_nat (List.length figi) <=? 5) eqn:E; symmetry.
    - apply Z.leb_le in E. apply Z.leb_le. lia.
    - apply Z.leb_gt in E. apply Z.leb_gt. lia. }
  split; [exact Hclass|].
  intros Hlen Hru. rewrite Hclass, Hru.
  destruct (len figi <=? 5) eqn:E; [apply Z.leb_le in E; lia | reflexivity].
Qed.

Lemma fallback_position_bucket_witness :
  classify (fallback_data (record "FIGI00001" 10)) = Others.
Proof.
  apply (proj2 (fallback_position_bucket (record "FIGI00001" 10)));
    vm_compute; reflexivity.
Defined.

Lemma classify_tests data :
  match classify data with
  | Bonds => bond_test (ticker data) (name data) = true
  | Etfs => bond_test (ticker data) (name data) = false
            /\ fund_test (ticker data) (name data) = true
  | Stocks => bond_test (ticker data) (name data) = false
              /\ fund_test (ticker data) (name data) = false
              /\ stock_test (ticker data) = true
  | Others => bond_test (ticker data) (name data) = false
              /\ fund_test (ticker data) (name data) = false
              /\ stock_test (ticker data) = false
  end.
Proof.
  unfold classify.
  change (startswith (ticker data) (lit "RU000")
          || contains (lit "ОФЗ") (name data)
          || contains (lit "БО") (name data))
    with (bond_test (ticker data) (name data)).
  change (startswith (ticker data) (lit "T")
          && (contains (lit "ETF") (name data)
              || contains (lit "фонд") (name data)))
    with (fund_test (ticker data) (name data)).
  change ((len (ticker data) <=? 5)
          && negb (startswith (ticker data) (lit "RU")))
    with (stock_test (ticker data)).
  destruct (bond_test _ _); [reflexivity|].
  destruct (fund_test _ _); [split; reflexivity|].
  destruct (stock_test _); repeat split; reflexivity.
Qed.

(** X16: every entry of a bucket passes the test of that bucket and fails
    the tests made before it: a ticker in the stocks bucket has at most
    five characters and does not start with [RU]; a ticker in the funds
    bucket starts with [T] and its name contains [ETF] or the fund marker;
    an entry of the bonds bucket has a ticker starting with [RU000] or a
    name with one of the two bond markers; and no entry outside the bonds
    bucket has such a ticker or name. *)
Theorem bucket_entries_pass_their_test
    (positions : dict PositionData) (c : asset_class) (k : str) (h : Holding)
    (Hentry : dict_get k (bucket c (categorize_assets positions)) = Some h) :
  match c with
  | Bonds => bond_test k (holding_name h) = true
  | Etfs => bond_test k (holding_name h) = false
            /\ fund_test k (holding_name h) = true
  | Stocks => bond_test k (holding_name h) = false
              /\ fund_test k (holding_name h) = false
              /\ len k <= 5 /\ startswith k (lit "RU") = false
  | Others => bond_test k (holding_name h) = false
              /\ fund_test k (holding_name h) = false
              /\ (5 < len k \/ startswith k (lit "RU") = true)
  end.
Proof.
  rewrite bucket_get in Hentry. apply last_holding_Some in Hentry.
  destruct Hentry as ([figi data] & _ & Hc & Hk & Hh). cbn [snd] in *.
  pose proof (classify_tests data) as Ht. rewrite Hc, Hk in Ht.
  subst h. cbn [holding_of holding_name]. destruct c; try exact Ht.
  - destruct Ht as (Hb & Hf & Hs). repeat split; try assumption.
    + unfold stock_test in Hs. apply andb_true_iff in Hs.
      apply Z.leb_le. tauto.
    + unfold stock_test in Hs. apply andb_true_iff in Hs.
      destruct Hs as [_ Hs]. apply negb_true_iff in Hs. exact Hs.
  - destruct Ht as (Hb & Hf & Hs). repeat split; try assumption.
    unfold stock_test in Hs. apply andb_false_iff in Hs.
    destruct Hs as [Hs | Hs].
    + left. apply Z.leb_gt in Hs. exact Hs.
    + right. apply negb_false_iff in Hs. exact Hs.
Qed.

Lemma bucket_entries_pass_their_test_witness :
  bond_test (lit "SBER") (lit "Сбербанк") = false
  /\ fund_test (lit "SBER") (lit "Сбербанк") = false
  /\ len (lit "SBER") <= 5 /\ startswith (lit "SBER") (lit "RU") = false.
Proof.
  refine (bucket_entries_pass_their_test scenario2_positions Stocks
            (lit "SBER")
            {| holding_name := lit "Сбербанк"; holding_quantity := 100 |} _).
  vm_compute. reflexivity.
Defined.

(* ===================================================================== *)
(** * Reporter: further properties *)
(* ===================================================================== *)

Lemma bucket_total_cons k (v : Holding) (d : dict Holding) :
  bucket_total ((k, v) :: d) = holding_quantity v + bucket_total d.
Proof. unfold bucket_total, dict_values. cbn [map snd]. apply sum_Z_cons. Qed.

Lemma bucket_total_nil : bucket_total [] = 0.
Proof. reflexivity. Qed.

Lemma dict_set_total_le k (v : Holding) (d : dict Holding) :
  Forall (fun e => 0 <= holding_quantity (snd e)) d ->
  0 <= holding_quantity v ->
  bucket_total (dict_set k v d) <= bucket_total d + holding_quantity v
  /\ Forall (fun e => 0 <= holding_quantity (snd e)) (dict_set k v d).
Proof.
  intros Hd Hv. induction Hd as [|[k0 v0] d H0 Hd IH]; cbn [dict_set].
  - rewrite bucket_total_cons. unfold bucket_total. cbn.
    split; [lia | repeat constructor; exact Hv].
  - cbn [snd] in H0. destruct (str_eqb k0 k).
    + rewrite !bucket_total_cons. split; [lia|]. constructor; assumption.
    + rewrite !bucket_total_cons. destruct IH as [IH1 IH2].
      split; [lia|]. constructor; assumption.
Qed.

Lemma fold_bucket_total_le c items d :
  Forall (fun e => 0 <= holding_quantity (snd e)) d ->
  Forall (fun item : str * PositionData => 0 <= quantity (snd item)) items ->
  0 <= bucket_total d ->
  0 <= bucket_total (fold_left (bucket_step c) items d)
    <= bucket_total d
       + sum_Z (quantities
                  (filter (fun it : str * PositionData =>
                             class_eqb c (classify (snd it))) items)).
Proof.
  intros Hd Hitems. revert d Hd.
  induction Hitems as [|item items Hq _ IH]; intros d Hd H0;
    cbn [fold_left filter].
  - unfold quantities, sum_Z. cbn. lia.
  - replace (bucket_step c d item)
      with (if class_eqb c (classify (snd item))
            then dict_set (ticker (snd item)) (holding_of (snd item)) d
            else d) by reflexivity.
    destruct (class_eqb c (classify (snd item))).
    + destruct (dict_set_total_le (ticker (snd item)) (holding_of (snd item))
                  d Hd Hq) as [Hle Hall].
      assert (Hnn : 0 <= bucket_total
                (dict_set (ticker (snd item)) (holding_of (snd item)) d)).
      { clear - Hall. induction Hall as [|[k v] l Hv _ IHl].
        - unfold bucket_total, sum_Z. cbn. lia.
        - rewrite bucket_total_cons. cbn [snd] in Hv. lia. }
      specialize (IH _ Hall Hnn).
      change (quantities (item :: ?l))
        with (quantity (snd item) :: quantities l).
      rewrite sum_Z_cons.
      cbn [holding_of holding_quantity] in Hle. lia.
    + apply IH; assumption.
Qed.

(** X17: when no quantity is negative, the reporter never shows more than
    is held: each subtotal lies between zero and the sum of the quantities
    of the positions the rule sends to that bucket, and the grand quantity
    is at most the sum of all quantities. *)
Theorem totals_never_exceed_holdings
    (positions : dict PositionData)
    (Hquantities : all_non_negative positions) :
  let b := categorize_assets positions in
  (forall c, 0 <= bucket_total (bucket c b)
             <= sum_Z (quantities (classified_as c positions))) /\
  bucket_total (bucket Bonds b) + bucket_total (bucket Stocks b)
  + bucket_total (bucket Etfs b) + bucket_total (bucket Others b)
  <= sum_Z (quantities (dict_items positions)).
Proof.
  intros b.
  assert (H : forall c, 0 <= bucket_total (bucket c b)
                        <= sum_Z (quantities (classified_as c positions))).
  { intros c. unfold b. rewrite categorize_assets_bucket.
    pose proof (fold_bucket_total_le c (dict_items positions) []
                  (Forall_nil _) Hquantities) as Hle.
    rewrite bucket_total_nil in Hle. specialize (Hle (Z.le_refl 0)).
    unfold classified_as. lia. }
  split; [exact H|].
  rewrite <- quantities_partition.
  pose proof (H Bonds). pose proof (H Stocks). pose proof (H Etfs).
  pose proof (H Others). lia.
Qed.

Lemma totals_never_exceed_holdings_witness :
  bucket_total (bucket Bonds (categorize_assets clash_positions))
  + bucket_total (bucket Stocks (categorize_assets clash_positions))
  + bucket_total (bucket Etfs (categorize_assets clash_positions))
  + bucket_total (bucket Others (categorize_assets clash_positions))
  <= sum_Z (quantities (dict_items clash_positions)).
Proof.
  refine (proj2 (totals_never_exceed_holdings clash_positions _)).
  unfold all_non_negative, clash_positions, position_item, dict_items.
  repeat constructor; cbn [snd quantity]; lia.
Defined.




(* ===================================================================== *)
(** * Formatter: further properties *)
(* ===================================================================== *)

Lemma without_spaces_digits (s : str) :
  Forall is_digit s -> without_spaces s = s.
Proof.
  unfold without_spaces.
  induction 1 as [|c s Hc _ IH]; [reflexivity|].
  cbn [filter]. destruct (chr_eqb c space) eqn:E.
  - unfold chr_eqb, space in E. apply N.eqb_eq in E.
    unfold is_digit in Hc. lia.
  - cbn [negb]. rewrite IH. reflexivity.
Qed.

Lemma without_spaces_groups (rest : list str) :
  Forall is_digit (List.concat rest) ->
  without_spaces (List.concat (map (fun g => space :: g) rest))
  = List.concat rest.
Proof.
  unfold without_spaces.
  induction rest as [|g rest IH]; cbn [map List.concat]; [reflexivity|].
  intros H. apply Forall_app in H. destruct H as [Hg Hrest].
  cbn [filter]. replace (chr_eqb space space) with true by reflexivity.
  cbn [negb]. rewrite filter_app, IH by exact Hrest. f_equal.
  apply (without_spaces_digits g Hg).
Qed.

Lemma format_quantity_grouped quantity :
  0 <= quantity ->
  grouped_by_three space (abs_digits quantity) (format_quantity quantity).
Proof.
  intros H. rewrite format_quantity_nonneg by exact H.
  rewrite <- (rev_involutive (abs_digits quantity)) at 1.
  apply group_thousands_rev_spec.
  intros Hnil. apply (abs_digits_nonempty quantity).
  rewrite <- (rev_involutive (abs_digits quantity)), Hnil. reflexivity.
Qed.

(** X19: the formatted quantity can be read back: for a quantity that is
    not negative, removing the spaces from the formatter's output gives the
    plain decimal rendering of the quantity, whose digits denote the
    quantity; the output contains no comma. *)
Theorem format_quantity_round_trip (quantity : Z) (Hq : 0 <= quantity) :
  without_spaces (format_quantity quantity) = str_of_int quantity /\
  int_of_digits (without_spaces (format_quantity quantity)) = quantity /\
  ~ In comma (format_quantity quantity).
Proof.
  assert (Hstr : str_of_int quantity = abs_digits quantity).
  { unfold str_of_int. destruct (quantity <? 0) eqn:E; [|reflexivity].
    apply Z.ltb_lt in E. lia. }
  destruct (format_quantity_grouped quantity Hq)
    as (first & rest & Hout & _ & _ & Hdigits).
  pose proof (uint_digits_are_digits (N.to_uint (Z.abs_N quantity))) as Hall.
  fold (abs_digits quantity) in Hall. rewrite <- Hdigits in Hall.
  apply Forall_app in Hall. destruct Hall as [Hfirst Hrest].
  assert (Hback : without_spaces (format_quantity quantity)
                  = abs_digits quantity).
  { rewrite Hout. unfold without_spaces. rewrite filter_app.
    fold (without_spaces first).
    fold (without_spaces (List.concat (map (fun g => space :: g) rest))).
    rewrite without_spaces_digits, without_spaces_groups by assumption.
    exact Hdigits. }
  split; [rewrite Hstr; exact Hback|]. split.
  - rewrite Hback, abs_digits_value. lia.
  - rewrite Hout. intros HIn. apply in_app_or in HIn.
    assert (Hdigit : forall c, is_digit c -> c <> comma)
      by (unfold is_digit, comma; intros c Hc; lia).
    destruct HIn as [HIn | HIn].
    + rewrite Forall_forall in Hfirst. exact (Hdigit _ (Hfirst _ HIn) eq_refl).
    + clear - HIn Hrest Hdigit.
      induction rest as [|g rest IH]; cbn [map List.concat] in *; [contradiction|].
      apply Forall_app in Hrest. destruct Hrest as [Hg Hrest].
      destruct HIn as [HIn | HIn]; [discriminate|].
      apply in_app_or in HIn. destruct HIn as [HIn | HIn].
      * rewrite Forall_forall in Hg. exact (Hdigit _ (Hg _ HIn) eq_refl).
      * exact (IH Hrest HIn).
Qed.

Lemma format_quantity_round_trip_witness :
  int_of_digits (without_spaces (format_quantity 1234567)) = 1234567.
Proof.
  exact (proj1 (proj2 (format_quantity_round_trip 1234567 ltac:(lia)))).
Defined.

(** X20: a negative quantity is formatted as a minus sign followed by the
    formatting of its absolute value. *)
Theorem format_quantity_negative (quantity : Z) (Hq : quantity < 0) :
  format_quantity quantity = minus_sign :: format_quantity (- quantity).
Proof.
  unfold format_quantity, format_comma.
  assert (Hd : abs_digits (- quantity) = abs_digits quantity).
  { unfold abs_digits. f_equal. f_equal. lia. }
  rewrite Hd.
  destruct (quantity <? 0) eqn:E1; [|apply Z.ltb_ge in E1; lia].
  destruct (- quantity <? 0) eqn:E2; [apply Z.ltb_lt in E2; lia|].
  reflexivity.
Qed.

Lemma format_quantity_negative_witness :
  format_quantity (-1234) = minus_sign :: format_quantity (- (-1234)).
Proof.
  exact (format_quantity_negative (-1234) ltac:(lia)).
Defined.

Lemma concat_groups_length (sep : codepoint) (rest : list str) :
  Forall (fun g => List.length g = 3%nat) rest ->
  List.length (List.concat rest) = (3 * List.length rest)%nat /\
  List.length (List.concat (map (fun g => sep :: g) rest))
  = (4 * List.length rest)%nat.
Proof.
  induction 1 as [|g rest Hg _ IH]; cbn [map List.concat List.length];
    [split; reflexivity|].
  destruct IH as [IH3 IH4]. rewrite !length_app. cbn [List.length]. lia.
Qed.

(** X21: the width of a formatted quantity.  For a quantity that is not
    negative and has [d] decimal digits the output has [d + (d - 1) / 3]
    characters: one space for every complete group of three digits after
    the first digit; it starts and ends with a digit. *)
Theorem format_quantity_length (quantity : Z) (Hq : 0 <= quantity) :
  let d := List.length (str_of_int quantity) in
  List.length (format_quantity quantity) = (d + (d - 1) / 3)%nat /\
  (exists c, hd_error (format_quantity quantity) = Some c /\ is_digit c) /\
  (exists c, hd_error (rev (format_quantity quantity)) = Some c /\ is_digit c).
Proof.
  intros d.
  assert (Hstr : str_of_int quantity = abs_digits quantity).
  { unfold str_of_int. destruct (quantity <? 0) eqn:E; [|reflexivity].
    apply Z.ltb_lt in E. lia. }
  destruct (format_quantity_grouped quantity Hq)
    as (first & rest & Hout & Hfirst & Hrest & Hdigits).
  pose proof (uint_digits_are_digits (N.to_uint (Z.abs_N quantity))) as Hall.
  fold (abs_digits quantity) in Hall.
  destruct (concat_groups_length space rest Hrest) as [Hl3 Hl4].
  split; [|split].
  - unfold d. rewrite Hstr, <- Hdigits, Hout, !length_app, Hl3, Hl4.
    assert (Hdiv : ((List.length first + 3 * List.length rest - 1) / 3
                    = List.length rest)%nat).
    { symmetry. apply Nat.div_unique with (List.length first - 1)%nat; lia. }
    rewrite Hdiv. lia.
  - rewrite <- Hdigits in Hall. apply Forall_app in Hall.
    destruct Hall as [Hf _]. rewrite Hout.
    destruct first as [|c first]; [simpl in Hfirst; lia|].
    exists c. split; [reflexivity|]. inversion Hf; assumption.
  - rewrite format_quantity_nonneg by exact Hq. rewrite rev_involutive.
    pose proof (abs_digits_nonempty quantity) as Hne.
    apply Forall_rev in Hall.
    destruct (rev (abs_digits quantity)) as [|a [|b [|c [|e more]]]] eqn:E.
    + exfalso. apply Hne. rewrite <- (rev_involutive (abs_digits quantity)), E.
      reflexivity.
    + exists a. split; [reflexivity|]. inversion Hall; assumption.
    + exists a. split; [reflexivity|]. inversion Hall; assumption.
    + exists a. split; [reflexivity|]. inversion Hall; assumption.
    + exists a. split; [reflexivity|]. inversion Hall; assumption.
Qed.

Lemma format_quantity_length_witness :
  List.length (format_quantity 1234567)
  = (List.length (str_of_int 1234567)
     + (List.length (str_of_int 1234567) - 1) / 3)%nat.
Proof.
  exact (proj1 (format_quantity_length 1234567 ltac:(lia))).
Defined.

(* ===================================================================== *)
(** * Classifier and reporter: what they do not depend on *)
(* ===================================================================== *)

Lemma categorize_step_ignores_identifier acc f1 f2 data :
  categorize_step acc (f1, data) = categorize_step acc (f2, data).
Proof. destruct acc as [[[bonds stocks] etfs] others]. reflexivity. Qed.

Lemma fold_categorize_ignores_identifiers
    (p1 p2 : list (str * PositionData)) acc :
  map snd p1 = map snd p2 ->
  fold_left categorize_step p1 acc = fold_left categorize_step p2 acc.
Proof.
  revert p2 acc. induction p1 as [|[f1 d1] p1 IH]; intros [|[f2 d2] p2] acc;
    cbn [map snd]; try discriminate; [reflexivity|].
  intros [= -> Hrest]. cbn [fold_left].
  rewrite (categorize_step_ignores_identifier acc f1 f2 d2).
  apply IH. exact Hrest.
Qed.

(** X22: the classifier and the reporter never read the instrument
    identifiers: two position dictionaries that hold the same names,
    tickers and quantities in the same order give the same buckets and,
    from the same state, the same report. *)
Theorem identifiers_are_not_read
    (W : Type) (p1 p2 : dict PositionData) (st : State W)
    (Hvalues : dict_values p1 = dict_values p2) :
  categorize_assets p1 = categorize_assets p2 /\
  display_portfolio_composition p1 st = display_portfolio_composition p2 st.
Proof.
  assert (Hcat : categorize_assets p1 = categorize_assets p2)
    by (apply fold_categorize_ignores_identifiers; exact Hvalues).
  split; [exact Hcat|].
  rewrite !display_run. f_equal. f_equal.
  unfold report_lines, statistics_lines, dict_len. rewrite Hcat.
  assert (Hlen : List.length p1 = List.length p2).
  { unfold dict_values in Hvalues.
    rewrite <- (length_map snd p1), Hvalues, length_map. reflexivity. }
  rewrite Hlen.
  destruct p1, p2; try discriminate; reflexivity.
Qed.

Lemma identifiers_are_not_read_witness :
  categorize_assets scenario2_positions
  = categorize_assets
      [ position_item "FIGI00000001" 100 "Сбербанк" "SBER";
        position_item "FIGI00000002" 500 "ОФЗ 26238" "RU000A1B2C3" ].
Proof.
  assert (Hvalues :
    dict_values scenario2_positions
    = dict_values
        [ position_item "FIGI00000001" 100 "Сбербанк" "SBER";
          position_item "FIGI00000002" 500 "ОФЗ 26238" "RU000A1B2C3" ]).
  { unfold scenario2_positions, dict_values, position_item.
    cbn [map snd]. reflexivity. }
  exact (proj1 (identifiers_are_not_read unit scenario2_positions _
                  empty_state Hvalues)).
Defined.

Lemma filter_Permutation {A} (p : A -> bool) (l1 l2 : list A) :
  Permutation l1 l2 -> Permutation (filter p l1) (filter p l2).
Proof.
  induction 1 as [|x l1 l2 _ IH|x y l|l1 l2 l3 _ IH1 _ IH2]; cbn [filter].
  - constructor.
  - destruct (p x); [constructor|]; exact IH.
  - destruct (p x), (p y); try reflexivity. apply perm_swap.
  - etransitivity; eassumption.
Qed.

(** X23: when no two positions of the same bucket share a ticker, the
    order in which the positions are iterated matters only for the order
    of the entries: each bucket holds the same entries, and the six closing
    lines of the report are the same. *)
Theorem totals_do_not_depend_on_order
    (p1 p2 : dict PositionData)
    (Hperm : Permutation p1 p2)
    (Hclash : no_ticker_clash p1) :
  no_ticker_clash p2 /\
  (forall c, Permutation (bucket c (categorize_assets p1))
                         (bucket c (categorize_assets p2))) /\
  statistics_lines p1 = statistics_lines p2.
Proof.
  assert (Hclash2 : no_ticker_clash p2).
  { unfold no_ticker_clash, dict_items in *.
    eapply Permutation_NoDup; [|exact Hclash].
    apply Permutation_map. exact Hperm. }
  assert (Hbuckets : forall c, Permutation (bucket c (categorize_assets p1))
                                           (bucket c (categorize_assets p2))).
  { intros c. rewrite !bucket_no_clash by assumption.
    apply Permutation_map. unfold classified_as, dict_items.
    apply filter_Permutation. exact Hperm. }
  split; [exact Hclash2|]. split; [exact Hbuckets|].
  unfold statistics_lines, dict_len.
  rewrite (Permutation_length Hperm).
  rewrite (bucket_total_Permutation _ _ (Hbuckets Bonds)).
  rewrite (bucket_total_Permutation _ _ (Hbuckets Stocks)).
  rewrite (bucket_total_Permutation _ _ (Hbuckets Etfs)).
  rewrite (bucket_total_Permutation _ _ (Hbuckets Others)).
  reflexivity.
Qed.

Lemma totals_do_not_depend_on_order_witness :
  statistics_lines scenario2_positions
  = statistics_lines
      [ position_item "BBG00000A1B2" 500 "ОФЗ 26238" "RU000A1B2C3";
        position_item "BBG004730N88" 100 "Сбербанк" "SBER" ].
Proof.
  refine (proj2 (proj2 (totals_do_not_depend_on_order scenario2_positions
                          [ position_item "BBG00000A1B2" 500 "ОФЗ 26238"
                              "RU000A1B2C3";
                            position_item "BBG004730N88" 100 "Сбербанк" "SBER" ]
                          _ _))).
  - apply perm_swap.
  - unfold no_ticker_clash. vm_compute.
    repeat constructor; simpl; intuition discriminate.
Defined.

(** X24: a position whose name contains one of the two bond markers takes
    the bonds branch whatever its ticker; the bonds bucket has an entry
    for its ticker, which is the position's own unless a later position
    with the same ticker is also put in the bonds bucket. *)
Theorem bond_marker_in_name_is_bond
    (positions : dict PositionData) figi data before after
    (Hpos : dict_items positions = before ++ (figi, data) :: after)
    (Hname : contains (lit "ОФЗ") (name data) = true
             \/ contains (lit "БО") (name data) = true) :
  let b := categorize_assets positions in
  classify data = Bonds /\
  (exists h, dict_get (ticker data) (bucket Bonds b) = Some h) /\
  ((forall item, In item after -> classify (snd item) = Bonds ->
                 ticker (snd item) <> ticker data) ->
   placed_in data (bucket Bonds b)).
Proof.
  intros b.
  assert (Hbond : classify data = Bonds).
  { unfold classify. destruct Hname as [-> | ->];
      rewrite ?orb_true_r; reflexivity. }
  unfold dict_items in Hpos. split; [exact Hbond|]. split.
  - destruct (dict_get (ticker data) (bucket Bonds b)) as [h|] eqn:E;
      [exists h; reflexivity|].
    exfalso. unfold b in E. rewrite bucket_get in E.
    refine (last_holding_hit Bonds (ticker data) _ (figi, data) _ Hbond eq_refl E).
    unfold dict_items. rewrite Hpos. apply in_or_app. right. left. reflexivity.
  - intros Hafter. unfold b. subst positions. rewrite <- Hbond.
    apply placed_in_last. rewrite Hbond. exact Hafter.
Qed.

Lemma bond_marker_in_name_is_bond_witness :
  classify (snd (position_item "BBG00000A1B2" 500 "ОФЗ 26238" "RU000A1B2C3"))
  = Bonds.
Proof.
  refine (proj1 (bond_marker_in_name_is_bond scenario2_positions
                   (lit "BBG00000A1B2")
                   (snd (position_item "BBG00000A1B2" 500 "ОФЗ 26238"
                           "RU000A1B2C3"))
                   [position_item "BBG004730N88" 100 "Сбербанк" "SBER"] []
                   eq_refl _)).
  left. vm_compute. reflexivity.
Defined.
